(** * google-bigquery-mcp: the MCP request router, the tool dispatcher and
      the SQL review pipeline of [mcp_helper.py], embedded in Rocq.

    The Python module talks to three outside parties: the BigQuery client
    library, the HTTP client used for the text-generation provider, and the
    Python run time itself (rendering of values, JSON decoding, the clock).
    Each of them is an oracle of the record [Env]; every function of the
    module is translated as a function of an [Env], returning in the monad
    [M]: a trace of the effects performed, and a value or a raised
    exception. *)

From Stdlib Require Import String Ascii List ZArith NArith Bool Lia.
From Stdlib Require Import SpecFloat DecimalString.
Import ListNotations.
Open Scope string_scope.
Open Scope Z_scope.

Set Implicit Arguments.
Set Warnings "-register-all".

(** ** Python values *)

(** The values that travel through the module: JSON data, argument
    mappings, schema descriptions, result dictionaries.  A dictionary keeps
    its insertion order, as Python's does; its keys are strings. *)
Inductive pyval : Type :=
| PNone
| PBool (b : bool)
| PInt (z : Z)
| PFloat (f : spec_float)
| PStr (s : string)
| PList (l : list pyval)
| PDict (d : list (string * pyval)).

Definition dict := list (string * pyval).

(** [d.get(k)] on the entries of a dictionary. *)
Fixpoint dict_lookup (k : string) (d : dict) : option pyval :=
  match d with
  | [] => None
  | (k', v) :: d' => if String.eqb k k' then Some v else dict_lookup k d'
  end.

Definition dict_has (k : string) (d : dict) : bool :=
  match dict_lookup k d with Some _ => true | None => false end.

(** ** Exceptions *)

Inductive exn_class : Type :=
| Exception
| ValueError
| JSONDecodeError
| KeyError
| IndexError
| TypeError
| AttributeError
| OverflowError
| ZeroDivisionError
| GoogleAPICallError
| BadRequest
| Forbidden
| NotFound
| RequestException
| HTTPError
| ConnectionError
| Timeout
| InvalidJSONError
| RequestsJSONDecodeError.

Definition exn_class_eqb (a b : exn_class) : bool :=
  match a, b with
  | Exception, Exception | ValueError, ValueError
  | JSONDecodeError, JSONDecodeError | KeyError, KeyError
  | IndexError, IndexError | TypeError, TypeError
  | AttributeError, AttributeError | OverflowError, OverflowError
  | ZeroDivisionError, ZeroDivisionError
  | GoogleAPICallError, GoogleAPICallError | BadRequest, BadRequest
  | Forbidden, Forbidden | NotFound, NotFound
  | RequestException, RequestException | HTTPError, HTTPError
  | ConnectionError, ConnectionError | Timeout, Timeout
  | InvalidJSONError, InvalidJSONError
  | RequestsJSONDecodeError, RequestsJSONDecodeError => true
  | _, _ => false
  end.

(** The base classes, none for [Exception] itself.  Only classes derived
    from [Exception] are modelled, and of the hierarchy what the [except]
    clauses of the module can tell apart.  [JSONDecodeError] is the class
    of [json]; [RequestsJSONDecodeError] is
    [requests.exceptions.JSONDecodeError], which [response.json()] raises
    and which derives both from [InvalidJSONError], a [RequestException],
    and from the class of [json]. *)
Definition base_classes (c : exn_class) : list exn_class :=
  match c with
  | Exception => []
  | JSONDecodeError => [ValueError]
  | BadRequest | Forbidden | NotFound => [GoogleAPICallError]
  | HTTPError | ConnectionError | Timeout | InvalidJSONError =>
      [RequestException]
  | RequestsJSONDecodeError => [InvalidJSONError; JSONDecodeError]
  | _ => [Exception]
  end.

(** [issubclass(c, d)], following the bases up to [depth] levels. *)
Fixpoint issubclass (depth : nat) (c d : exn_class) : bool :=
  exn_class_eqb c d
  || match depth with
     | O => false
     | S depth' => existsb (fun b => issubclass depth' b d) (base_classes c)
     end.

(** An exception object: its class, its [message] attribute and the text
    [str(e)] gives. *)
Record exn : Type := MkExn {
  exn_cls : exn_class;
  exn_message : string;
  exn_str : string
}.

(** [isinstance(e, c)]: no class is more than three levels below
    [Exception]. *)
Definition isinstance (e : exn) (c : exn_class) : bool :=
  issubclass 3 (exn_cls e) c.

(** [raise C(msg)]: for the built-in classes [str(e)] is the message. *)
Definition mk_exn (c : exn_class) (msg : string) : exn := MkExn c msg msg.

(** ** Outcomes and the effect monad *)

Inductive result (A : Type) : Type :=
| Ok (a : A)
| Raise (e : exn).
Arguments Ok {A} a.
Arguments Raise {A} e.

Record QueryJobConfig : Type := {
  dry_run : bool;
  use_query_cache : bool
}.

(** What the module does to the outside world, in order. *)
Inductive event : Type :=
| EvListDatasets (project : string)
| EvListTables (dataset : string)
| EvGetTable (table_id : pyval)
| EvQuery (sql : pyval) (job_config : option QueryJobConfig)
| EvHttpPost (url : string) (payload : pyval)
| EvPrint (text : string).

Definition is_network_call (ev : event) : bool :=
  match ev with
  | EvPrint _ => false
  | _ => true
  end.

Definition M (A : Type) : Type := (list event * result A)%type.

Definition ret {A} (a : A) : M A := ([], Ok a).
Definition raise {A} (e : exn) : M A := ([], Raise e).

Definition bind {A B} (m : M A) (k : A -> M B) : M B :=
  match m with
  | (tr, Ok a) => let '(tr', r) := k a in ((tr ++ tr')%list, r)
  | (tr, Raise e) => (tr, Raise e)
  end.

(** [try: m  except Exception as e: h e], every modelled exception being an
    [Exception]. *)
Definition try_except {A} (m : M A) (h : exn -> M A) : M A :=
  match m with
  | (tr, Ok a) => (tr, Ok a)
  | (tr, Raise e) => let '(tr', r) := h e in ((tr ++ tr')%list, r)
  end.

(** A pure computation that may raise. *)
Definition lift {A} (r : result A) : M A := ([], r).

(** A call to the outside: it is recorded, and answers with [r]. *)
Definition call {A} (ev : event) (r : result A) : M A := ([ev], r).

Definition trace {A} (m : M A) : list event := fst m.
Definition outcome {A} (m : M A) : result A := snd m.

Declare Scope py_scope.
Delimit Scope py_scope with py.
Notation "x <- m ;; k" := (bind m (fun x => k))
  (at level 61, m at next level, right associativity) : py_scope.
Notation "m ;;; k" := (bind m (fun _ => k))
  (at level 61, right associativity) : py_scope.
Open Scope py_scope.

(** ** Built-in operations of the Python run time *)

Definition dq : string := String (ascii_of_nat 34) EmptyString.
Definition sq : string := String (ascii_of_nat 39) EmptyString.
Definition nl : string := String (ascii_of_nat 10) EmptyString.

(** [sep.join(parts)]. *)
Fixpoint join (sep : string) (parts : list string) : string :=
  match parts with
  | [] => EmptyString
  | [p] => p
  | p :: ps => p ++ sep ++ join sep ps
  end.

(** [needle in hay] on strings. *)
Fixpoint is_infix (needle hay : string) : bool :=
  prefix needle hay
  || match hay with
     | EmptyString => false
     | String _ hay' => is_infix needle hay'
     end.

(** The text contains the piece, somewhere. *)
Definition Embeds (text piece : string) : Prop :=
  exists before after, text = before ++ piece ++ after.

Definition str_of_Z (z : Z) : string := NilZero.string_of_int (Z.to_int z).

(** Truth value of a Python object, as [not x] and [if x] test it. *)
Definition py_truthy (v : pyval) : bool :=
  match v with
  | PNone => false
  | PBool b => b
  | PInt z => negb (z =? 0)
  | PFloat (S754_zero _) => false
  | PFloat _ => true
  | PStr s => negb (String.eqb s EmptyString)
  | PList l => match l with [] => false | _ => true end
  | PDict d => match d with [] => false | _ => true end
  end.

(** [v == "literal"]. *)
Definition py_eq_str (v : pyval) (s : string) : bool :=
  match v with
  | PStr t => String.eqb t s
  | _ => false
  end.

Definition type_name (v : pyval) : string :=
  match v with
  | PNone => "NoneType"
  | PBool _ => "bool"
  | PInt _ => "int"
  | PFloat _ => "float"
  | PStr _ => "str"
  | PList _ => "list"
  | PDict _ => "dict"
  end.

(** [v.get(key)] and [v.get(key, default)]: only dictionaries have the
    method. *)
Definition py_get_default (v : pyval) (key : string) (default : pyval)
  : result pyval :=
  match v with
  | PDict d =>
      Ok (match dict_lookup key d with Some x => x | None => default end)
  | _ => Raise (mk_exn AttributeError
                  (sq ++ type_name v ++ "' object has no attribute 'get'"))
  end.

Definition py_get (v : pyval) (key : string) : result pyval :=
  py_get_default v key PNone.

(** [v[key]] with a string key. *)
Definition py_getitem (v : pyval) (key : string) : result pyval :=
  match v with
  | PDict d =>
      match dict_lookup key d with
      | Some x => Ok x
      | None => Raise (MkExn KeyError key (sq ++ key ++ sq))
      end
  | PList _ =>
      Raise (mk_exn TypeError
               "list indices must be integers or slices, not str")
  | PStr _ =>
      Raise (mk_exn TypeError "string indices must be integers, not 'str'")
  | _ => Raise (mk_exn TypeError
                  (sq ++ type_name v ++ "' object is not subscriptable"))
  end.

(** [v[0]]. *)
Definition py_getitem0 (v : pyval) : result pyval :=
  match v with
  | PList (x :: _) => Ok x
  | PList [] => Raise (mk_exn IndexError "list index out of range")
  | PStr (String c _) => Ok (PStr (String c EmptyString))
  | PStr EmptyString => Raise (mk_exn IndexError "string index out of range")
  | PDict _ => Raise (MkExn KeyError "0" "0")
  | _ => Raise (mk_exn TypeError
                  (sq ++ type_name v ++ "' object is not subscriptable"))
  end.

(** [len(v)]. *)
Definition py_len (v : pyval) : result Z :=
  match v with
  | PList l => Ok (Z.of_nat (List.length l))
  | PDict d => Ok (Z.of_nat (List.length d))
  | PStr s => Ok (Z.of_nat (String.length s))
  | _ => Raise (mk_exn TypeError
                  ("object of type " ++ sq ++ type_name v ++ "' has no len()"))
  end.

(** ["literal" in v]. *)
Definition py_contains_str (v : pyval) (s : string) : result bool :=
  match v with
  | PDict d => Ok (dict_has s d)
  | PList l => Ok (existsb (fun x => py_eq_str x s) l)
  | PStr t => Ok (is_infix s t)
  | _ => Raise (mk_exn TypeError
                  ("argument of type " ++ sq ++ type_name v
                   ++ "' is not iterable"))
  end.

(** ** Floating-point numbers

    A Python [float] is an IEEE 754 binary64 number, here a [spec_float]
    with 53 bits of precision; the operations below are the correctly
    rounded ones (round to nearest, ties to even). *)

Definition prec : Z := 53.
Definition emax : Z := 1024.

(** The float a decimal literal [num/den] denotes, such as [6.25] or
    [0.1]: the nearest binary64 number. *)
Definition py_float_lit (num den : positive) : spec_float :=
  SFdiv prec emax (S754_finite false num 0) (S754_finite false den 0).

(** [a / b] on two Python integers: the correctly rounded quotient. *)
Definition py_int_truediv (a b : Z) : result spec_float :=
  match b with
  | Z0 => Raise (mk_exn ZeroDivisionError "division by zero")
  | _ =>
      match a with
      | Z0 => Ok (S754_zero (b <? 0))
      | _ =>
          match SFdiv prec emax
                  (S754_finite (a <? 0) (Z.to_pos (Z.abs a)) 0)
                  (S754_finite (b <? 0) (Z.to_pos (Z.abs b)) 0) with
          | S754_infinity _ =>
              Raise (mk_exn OverflowError
                       "integer division result too large for a float")
          | q => Ok q
          end
      end
  end.

(** [x * y] on two floats. *)
Definition py_float_mul (x y : spec_float) : spec_float :=
  SFmul prec emax x y.

(** The integer nearest to [num / den], ties going to the even one. *)
Definition round_half_even (num : Z) (den : positive) : Z :=
  let q := num / Zpos den in
  let r := num mod Zpos den in
  match 2 * r ?= Zpos den with
  | Lt => q
  | Gt => q + 1
  | Eq => if Z.even q then q else q + 1
  end.

(** [round(x, ndigits)] on a float: the exact value of [x] goes to the
    nearest multiple of [10 ** -ndigits], ties to the even multiple, and
    that decimal number to the nearest float. *)
Definition py_round (x : spec_float) (ndigits : N) : spec_float :=
  match x with
  | S754_finite s m e =>
      let scale := 10 ^ Z.of_N ndigits in
      let n := match e with
               | Zneg k => round_half_even (Zpos m * scale) (2 ^ k)%positive
               | _ => Zpos m * scale * 2 ^ e
               end in
      match n with
      | Zpos p =>
          SFdiv prec emax (S754_finite s p 0)
            (S754_finite false (Z.to_pos scale) 0)
      | _ => S754_zero s
      end
  | _ => x
  end.

(** ** The outside world *)

(** Items of [client.list_datasets] and [client.list_tables]. *)
Record Dataset : Type := { dataset_id : string }.
Record TableListItem : Type := { table_id : string }.

(** A [SchemaField], known through its API representation. *)
Record SchemaField : Type := { to_api_repr : dict }.
Record Table : Type := { schema : list SchemaField }.

(** A cell of a result row.  JSON-native values are carried as they are;
    the others are known by what the converter below needs of them. *)
Inductive cell : Type :=
| CellJson (v : pyval)
| CellDate (isoformat : string)
| CellDecimal (as_float : spec_float)
| CellOther (str : string).

Definition Row : Type := list (string * cell).

(** A [QueryJob]: the statistics of a dry run (the integer the warehouse
    reported as the count of bytes, [None] when the statistics are absent)
    and the rows iterating over the job gives. *)
Record QueryJob : Type := {
  total_bytes_processed : option Z;
  job_rows : result (list Row)
}.

(** A [requests.Response]. *)
Record Response : Type := {
  raise_for_status : option exn;
  response_json : result pyval
}.

Record Env : Type := {
  (** [os.getenv] *)
  os_getenv : string -> option string;
  (** [datetime.datetime.now().strftime("%Y-%m-%d %H:%M:%S")] *)
  now_strftime : string;
  (** [str(v)] for floats, lists and dictionaries *)
  builtin_str : pyval -> string;
  (** [str(generate_sql_query)], the rendering of the function object *)
  generate_sql_query_repr : string;
  (** [json.loads] *)
  json_loads : string -> result pyval;
  (** [pd.DataFrame(rows).to_string(index=False)] *)
  dataframe_to_string : list dict -> string;
  (** [list(client.list_datasets(project=...))] *)
  client_list_datasets : string -> result (list Dataset);
  (** [list(client.list_tables(dataset))] *)
  client_list_tables : Dataset -> result (list TableListItem);
  (** [client.get_table(table_id)] *)
  client_get_table : pyval -> result Table;
  (** [client.query(sql, job_config=...)] *)
  client_query : pyval -> option QueryJobConfig -> result QueryJob;
  (** [requests.post(url, json=payload, timeout=30)] *)
  requests_post : string -> pyval -> result Response
}.

(** [str(v)], as an f-string placeholder renders a value. *)
Definition py_str (E : Env) (v : pyval) : string :=
  match v with
  | PStr s => s
  | PNone => "None"
  | PBool true => "True"
  | PBool false => "False"
  | PInt z => str_of_Z z
  | _ => builtin_str E v
  end.

(** ** Variables of the module *)

Definition project_id : string := "INSERT_YOUR_GOOGLE_CLOUD_PROJECT_ID".

(** ** Text templates

    The f-strings of the module, with their placeholders as parameters. *)

(** The text pieces of the dataset report. *)
Definition dataset_line (dataset_id : string) : string :=
  "
ðŸ“‚ Dataset: " ++ dataset_id.

Definition table_line (table_id : string) : string :=
  "   â””â”€â”€ ðŸ“„ Table: " ++ table_id.

Definition no_tables_line : string :=
  "   â””â”€â”€ (No tables in this dataset)".

Definition table_error_line (e : string) : string :=
  "   â””â”€â”€ [Error listing tables: " ++ e ++ "]".

Definition project_error_text (e : string) : string :=
  "Error accessing project '" ++ project_id ++ "': " ++ e.

Definition datasets_instructions (joined_data : string) : string :=
  "This following datasets live in the user's Google BigQuery Account:
    " ++ project_id ++ "

    Here are the datasets:
    " ++ joined_data ++ "

    Important: It is important that you reference this project_id (" ++ project_id ++ ") when you return this data. This project_id helps confirm that you are pulling the right information.
    ".

(** The text pieces of the system prompt. *)
Definition schema_text_line (name type mode : string) : string :=
  "- " ++ name ++ " (" ++ type ++ ", " ++ mode ++ ")".

Definition system_prompt_text (current_time schema_text table_id user_question : string) : string :=
  "You are an expert BigQuery SQL analyst. You write correct, optimized,
SELECT-only SQL queries based strictly on the table schema and the user's request.
You never guess nonexistent columns. You avoid harmful commands such as
DELETE, UPDATE, INSERT, DROP, TRUNCATE, and CREATE.

# P (Problem):

The user wants a SQL query constructed from a natural-language question.
Today's timestamp is: " ++ current_time ++ ".
You must rely ONLY on the provided schema and table ID.
Schema:
" ++ schema_text ++ "

Table ID: " ++ table_id ++ "

GUIDANCE:
- Always produce a single valid SQL SELECT statement.
- Always wrap the table that is being selected in `` (eg. FROM `project.dataset.table`)
- All table names must include a project_id.datset_id.table_id. 
- Use fully qualified column names only if necessary.
- Add WHERE filters based on the user's question.
- If the question is ambiguous, choose the safest, simplest
  interpretation that returns meaningful results.
- Never include ORDER BY unless explicitly requested.
- Never hallucinate fields that do not appear in the schema.
- Never wrap your SQL in markdown or code fences. Return raw SQL ONLY.

EXAMPLE INPUT QUESTION:
" ++ dq ++ "Show me total impressions by device for yesterday for the site 'https://example.com'" ++ dq ++ "

EXAMPLE SCHEMA:
- data_date (DATE, NULLABLE)
- site_url (STRING, NULLABLE)
- query (STRING, NULLABLE)
- is_anonymized_query (BOOLEAN, NULLABLE)
- country (STRING, NULLABLE)
- search_type (STRING, NULLABLE)
- device (STRING, NULLABLE)
- impressions (INTEGER, NULLABLE)
- clicks (INTEGER, NULLABLE)
- sum_top_position (INTEGER, NULLABLE)

EXAMPLE SQL QUERY:
SELECT
  device,
  SUM(impressions) AS total_impressions
FROM `project.dataset.table`
WHERE site_url = 'https://example.com'
  AND data_date = DATE_SUB(CURRENT_DATE(), INTERVAL 1 DAY)
GROUP BY device;

END OF EXAMPLE.

Now produce the SQL SELECT query for this user question:
" ++ dq ++ dq ++ dq ++ user_question ++ dq ++ dq ++ dq ++ "

Final note:
The current time for this request is: " ++ current_time ++ "
".

(** The address of the text-generation request. *)
Definition gemini_url (ai_model gemini_api_key : string) : string :=
  "https://generativelanguage.googleapis.com/v1beta/models/" ++ ai_model ++ ":generateContent?key=" ++ gemini_api_key.

(** The message composed when the dry run classified the statement as
    INVALID.  Its first placeholder is the name [generate_sql_query]: the
    function itself, not the variable [generated_sql_query]. *)
Definition invalid_sql_guidance (generate_sql_query_repr question table_schema : string) : string :=
  "This SQL query is not valid: 
                " ++ generate_sql_query_repr ++ "

                Important: Guidance for presenting this sql query.

                When a sql query is invalid, you can attempt to correct this query based on the user's question:
                " ++ question ++ "

                This query that was generated from this table has the following schema:
                " ++ table_schema ++ "

                It's also recommended to let the user know that the first pass at generating the query failed and you are requesting user input to validate the query.
                 ".

(** The message composed otherwise. *)
Definition valid_sql_presentation (table_id question table_schema generated_sql_query estimated_cost_usd bytes_processed : string) : string :=
  "This SQL statement helps pull data from the following Google BigQuery table:
                " ++ table_id ++ ". 

                It helps answer the following question: 
                " ++ question ++ "

                This table has the following schema:
                " ++ table_schema ++ "

                Important: Guidance for presenting this query to the user

                When presenting this query to the user, please wrap the query in pre tags with a class=" ++ dq ++ "sql-query" ++ dq ++ " to ensure readability. 
                It's also very important to allow the user to test the query, by adding a <button class=" ++ dq ++ "execute-sql-query" ++ dq ++ ">Execute SQL Query</button> at the very bottom of your response as a CTA. 
                There is already javascript on the page listening for clicks on this button. 

                Here is the generated sql query:
                " ++ generated_sql_query ++ "   

                Important: Sql Validation
                This sql statement has been validated with the Google BigQuery QueryJobConfig method and can be executed. It is important to communicate to the user how much running this query could cost with the amounts processed for transparency reasons. 
                
                These estimates should be share with the user and are from a dry run validation:
                Estimated cost to run (USD): " ++ estimated_cost_usd ++ "
                Estimated bytes processed on run: " ++ bytes_processed ++ "                
                ".

(** The text [run_sql_query_via_bq_api] composes around the table. *)
Definition final_results_text (sql_query table_str : string) : string :=
  "This data comes from BigQuery. It was pulled using the following query:
    " ++ sql_query ++ "

    When presenting this information to the user, please present as a table if no other data visualizations were requested.
    
    It's important to always show the query underneath the final data so that the user can easily understand how this data was pulled.

    Here is the data:
    " ++ table_str ++ "    
    ".

(** ** MCP protocol handlers *)

Definition handle_initialize : pyval :=
  PDict [
    ("protocolVersion", PStr "2024-11-05");
    ("serverInfo", PDict [
      ("name", PStr "bigquery-mcp");
      ("version", PStr "0.1.0")
    ]);
    ("capabilities", PDict [
      ("tools", PDict [
        ("list", PBool true);
        ("call", PBool true)
      ])
    ])
  ].

Definition handle_tools_list : pyval :=
  PDict [
    ("tools", PList [
      PDict [
        ("name", PStr "get_list_of_datasets_by_project_id");
        ("description", PStr ("This tool returns a list of available projects in the following project_id: " ++ project_id ++ "."));
        ("annotations", PDict [("read_only", PBool false)]);
        ("inputSchema", PDict [
          ("type", PStr "object");
          ("properties", PDict [
            ("query", PDict [("type", PStr "string"); ("description", PStr "The user's question to get the list of datasets by project ID")])
          ]);
          ("required", PList [PStr "query"]);
          ("additionalProperties", PBool false)
        ])
      ];
      PDict [
        ("name", PStr "get_table_schema");
        ("description", PStr "This tool returns the schema for a specific BigQuery table.");
        ("annotations", PDict [("read_only", PBool false)]);
        ("inputSchema", PDict [
          ("type", PStr "object");
          ("properties", PDict [
            ("table_id", PDict [("type", PStr "string"); ("description", PStr "The ID of the table to get the schema for. e.g. 'project_id.dataset_id.table_id'")])
          ]);
          ("required", PList [PStr "table_id"]);
          ("additionalProperties", PBool false)
        ])
      ];
      PDict [
        ("name", PStr "create_custom_sql_query_to_review");
        ("description", PStr "Create a custom SQL query for review based on a natural language question and a table ID for the user's review. This must be completed prior to any execution of the query.");
        ("annotations", PDict [("read_only", PBool false)]);
        ("inputSchema", PDict [
          ("type", PStr "object");
          ("properties", PDict [
            ("question", PDict [
              ("type", PStr "string");
              ("description", PStr "Natural language question to generate a SQL query for.")
            ]);
            ("table_id", PDict [
              ("type", PStr "string");
              ("description", PStr ("The ID of the table to generate a SQL query for. The complete table that is being queryed must include 3 parts. e.g. '" ++ project_id ++ ".dataset_id.table_id'"))
            ])
          ]);
          ("required", PList [PStr "question"; PStr "table_id"]);
          ("additionalProperties", PBool false)
        ])
      ];
      PDict [
        ("name", PStr "run_sql_query");
        ("description", PStr "Run the user's requested SQL query.");
        ("annotations", PDict [("read_only", PBool false)]);
        ("inputSchema", PDict [
          ("type", PStr "object");
          ("properties", PDict [
            ("sql_query", PDict [
              ("type", PStr "string");
              ("description", PStr "The complete sql query with no modifications to be run on the user's BigQuery instance.")
            ]);
            ("confirmation_key", PDict [
              ("type", PStr "string");
              ("description", PStr "The key required for an LLM to run the query'")
            ])
          ]);
          ("required", PList [PStr "sql_query"; PStr "confirmation_key"]);
          ("additionalProperties", PBool false)
        ])
      ]
    ])
  ].

(** ** BigQuery tool: get_list_of_datasets_by_project_id *)

(** The body of [for dataset in datasets], threading [output_lines]. *)
Fixpoint inspect_datasets (E : Env) (datasets : list Dataset)
    (output_lines : list string) : M (list string) :=
  match datasets with
  | [] => ret output_lines
  | dataset :: rest =>
      let output_lines :=
        (output_lines ++ [dataset_line (dataset_id dataset)])%list in
      output_lines <-
        try_except
          (tables <- call (EvListTables (dataset_id dataset))
                       (client_list_tables E dataset) ;;
           match tables with
           | _ :: _ =>
               ret (output_lines
                    ++ map (fun table => table_line (table_id table)) tables)%list
           | [] => ret (output_lines ++ [no_tables_line])%list
           end)
          (fun e => ret (output_lines ++ [table_error_line (exn_str e)])%list) ;;
      inspect_datasets E rest output_lines
  end.

(** The [try] block either leaves the function with a text ([inl]) or
    falls through with the lines gathered ([inr]). *)
Definition get_list_of_datasets_by_project_id (E : Env) (arguments : pyval)
  : M pyval :=
  let output_lines := ["--- Inspecting Project: " ++ project_id ++ " ---"] in
  r <- try_except
         (datasets <- call (EvListDatasets project_id)
                        (client_list_datasets E project_id) ;;
          match datasets with
          | [] => ret (inl "No datasets found in this project.")
          | _ :: _ =>
              output_lines <- inspect_datasets E datasets output_lines ;;
              ret (inr output_lines)
          end)
         (fun e => ret (inl (project_error_text (exn_str e)))) ;;
  match r with
  | inl text => ret (PStr text)
  | inr output_lines =>
      let joined_data := join nl output_lines in
      let instructions := datasets_instructions joined_data in
      ret (PStr instructions)
  end.

(** ** BigQuery tool: get_table_schema *)

Definition get_table_schema (E : Env) (arguments : pyval) : M pyval :=
  table_id <- lift (py_get arguments "table_id") ;;
  table <- call (EvGetTable table_id) (client_get_table E table_id) ;;
  let schema_list :=
    map (fun field => PDict (to_api_repr field)) (schema table) in
  ret (PList schema_list).

(** ** BigQuery tool: create_custom_sql_query_to_review *)

(** [bytes_processed / (1024 ** 4)], the left operand being the job's
    [total_bytes_processed]. *)
Definition truediv_bytes (bytes_processed : option Z) (divisor : Z)
  : result spec_float :=
  match bytes_processed with
  | Some b => py_int_truediv b divisor
  | None =>
      Raise (mk_exn TypeError
               "unsupported operand type(s) for /: 'NoneType' and 'int'")
  end.

Definition bytes_value (bytes_processed : option Z) : pyval :=
  match bytes_processed with
  | Some b => PInt b
  | None => PNone
  end.

Definition check_query_validity_and_cost (E : Env) (query_string : pyval)
  : M pyval :=
  let job_config := {| dry_run := true; use_query_cache := false |} in
  try_except
    (query_job <- call (EvQuery query_string (Some job_config))
                    (client_query E query_string (Some job_config)) ;;
     let bytes_processed := total_bytes_processed query_job in
     terabytes <- lift (truediv_bytes bytes_processed (1024 ^ 4)) ;;
     let price_per_tb := py_float_lit 625 100 in
     let estimated_cost := py_float_mul terabytes price_per_tb in
     ret (PDict [
       ("status", PStr "VALID");
       ("message", PStr "This query is valid.");
       ("estimated_cost_usd", PFloat (py_round estimated_cost 6));
       ("bytes_processed", bytes_value bytes_processed)
     ]))
    (fun e =>
       if isinstance e GoogleAPICallError then
         ret (PDict [
           ("status", PStr "INVALID");
           ("message", PStr "The query cannot be executed.");
           ("error_details", PStr (exn_message e))
         ])
       else
         ret (PDict [
           ("status", PStr "ERROR");
           ("message", PStr "An unexpected system error occurred.");
           ("error_details", PStr (exn_str e))
         ])).

(** [for x in v]: the items the loop visits. *)
Definition py_iter (v : pyval) : result (list pyval) :=
  match v with
  | PList l => Ok l
  | PDict d => Ok (map (fun kv => PStr (fst kv)) d)
  | PStr s =>
      Ok (map (fun c => PStr (String c EmptyString)) (list_ascii_of_string s))
  | _ => Raise (mk_exn TypeError
                  (sq ++ type_name v ++ "' object is not iterable"))
  end.

(** [[f(x) for x in xs]], stopping at the first exception. *)
Fixpoint comprehension {A B} (f : A -> M B) (xs : list A) : M (list B) :=
  match xs with
  | [] => ret []
  | x :: xs' =>
      y <- f x ;;
      ys <- comprehension f xs' ;;
      ret (y :: ys)
  end.

Definition bq_sql_gnerator_system_prompt (E : Env)
    (user_question schema table_id : pyval) : M string :=
  let current_time := now_strftime E in
  cols <- lift (py_iter schema) ;;
  lines <- comprehension
             (fun col =>
                name <- lift (py_getitem col "name") ;;
                type <- lift (py_getitem col "type") ;;
                mode <- lift (py_getitem col "mode") ;;
                ret (schema_text_line (py_str E name) (py_str E type)
                       (py_str E mode)))
             cols ;;
  let schema_text := join nl lines in
  let system_prompt :=
    system_prompt_text current_time schema_text (py_str E table_id)
      (py_str E user_question) in
  ret system_prompt.

(** [not gemini_api_key] on what [os.getenv] gave. *)
Definition env_value_missing (v : option string) : bool :=
  match v with
  | None => true
  | Some s => String.eqb s EmptyString
  end.

Definition env_value_text (v : option string) : string :=
  match v with
  | None => "None"
  | Some s => s
  end.

Definition generate_sql_query (E : Env)
    (question table_schema table_id : pyval) : M pyval :=
  (* Validate required parameters *)
  if negb (py_truthy question) || negb (py_truthy table_id) then
    raise (mk_exn ValueError "question and table_id are required")
  else
  (* Get Gemini API key from environment variable *)
  let gemini_api_key := os_getenv E "GOOGLE_AI_KEY" in
  if env_value_missing gemini_api_key then
    raise (mk_exn ValueError "GOOGLE_AI_KEY environment variable is not set")
  else
  system_prompt <-
    bq_sql_gnerator_system_prompt E question table_schema table_id ;;
  let ai_model := "gemini-2.5-flash" in
  let payload :=
    PDict [
      ("system_instruction", PDict [
        ("parts", PList [PDict [("text", PStr system_prompt)]])
      ]);
      ("contents", PList [
        PDict [
          ("role", PStr "user");
          ("parts", PList [PDict [("text", PStr (py_str E question))]])
        ]
      ]);
      ("generationConfig", PDict [
        ("temperature", PFloat (py_float_lit 1 10));
        ("topK", PInt 40);
        ("topP", PFloat (py_float_lit 95 100));
        ("maxOutputTokens", PInt 4096)
      ])
    ] in
  let url := gemini_url ai_model (env_value_text gemini_api_key) in
  try_except
    (response <- call (EvHttpPost url payload) (requests_post E url payload) ;;
     lift (match raise_for_status response with
           | Some e => Raise e
           | None => Ok tt
           end) ;;;
     result <- lift (response_json response) ;;
     has_candidates <- lift (py_contains_str result "candidates") ;;
     nonempty <-
       (if has_candidates : bool then
          candidates <- lift (py_getitem result "candidates") ;;
          n <- lift (py_len candidates) ;;
          ret (0 <? n)
        else ret false) ;;
     if nonempty : bool then
       candidates <- lift (py_getitem result "candidates") ;;
       candidate <- lift (py_getitem0 candidates) ;;
       content <- lift (py_getitem candidate "content") ;;
       parts <- lift (py_getitem content "parts") ;;
       part <- lift (py_getitem0 parts) ;;
       generated_sql_query <- lift (py_getitem part "text") ;;
       query_status <- check_query_validity_and_cost E generated_sql_query ;;
       status <- lift (py_getitem query_status "status") ;;
       generated_sql_with_instructions <-
         (if py_eq_str status "INVALID" then
            call (EvPrint "invalid") (Ok tt) ;;;
            ret (invalid_sql_guidance (generate_sql_query_repr E)
                   (py_str E question) (py_str E table_schema))
          else
            estimated_cost_usd <-
              lift (py_getitem query_status "estimated_cost_usd") ;;
            bytes_processed <-
              lift (py_getitem query_status "bytes_processed") ;;
            ret (valid_sql_presentation (py_str E table_id)
                   (py_str E question) (py_str E table_schema)
                   (py_str E generated_sql_query)
                   (py_str E estimated_cost_usd)
                   (py_str E bytes_processed))) ;;
       ret (PDict [
         ("sql_query", PStr generated_sql_with_instructions);
         ("user_query", question);
         ("status", PStr "success")
       ])
     else
       ret (PDict [
         ("sql_query", PStr "No results generated from Gemini API");
         ("user_query", question);
         ("status", PStr "no_results")
       ]))
    (fun e =>
       if isinstance e RequestException then
         raise (mk_exn Exception
                  ("Gemini API request failed: " ++ exn_str e))
       else
         raise (mk_exn Exception
                  ("Error processing Gemini API response: " ++ exn_str e))).

Definition create_custom_sql_query_to_review (E : Env) (arguments : pyval)
  : M pyval :=
  question <- lift (py_get arguments "question") ;;
  table_id <- lift (py_get arguments "table_id") ;;
  schema <- get_table_schema E (PDict [("table_id", table_id)]) ;;
  sql <- generate_sql_query E question schema table_id ;;
  ret sql.

(** ** BigQuery tool: run_sql_query *)

Definition json_serializable_converter (E : Env) (obj : cell) : pyval :=
  match obj with
  | CellDate isoformat => PStr isoformat
  | CellDecimal as_float => PFloat as_float
  | CellOther str => PStr str
  | CellJson v => PStr (py_str E v)
  end.

(** [json.loads(json.dumps(rows, default=json_serializable_converter))]:
    the converter is applied to the cells JSON cannot carry. *)
Definition json_clean_cell (E : Env) (c : cell) : pyval :=
  match c with
  | CellJson v => v
  | _ => json_serializable_converter E c
  end.

Definition json_clean_row (E : Env) (row : Row) : dict :=
  map (fun kc => (fst kc, json_clean_cell E (snd kc))) row.

Definition run_sql_query_via_bq_api (E : Env) (arguments : pyval) : M pyval :=
  sql_query <- lift (py_get arguments "sql_query") ;;
  query_job <- call (EvQuery sql_query None) (client_query E sql_query None) ;;
  rows <- lift (job_rows query_job) ;;
  let clean_rows := map (json_clean_row E) rows in
  let table_str := dataframe_to_string E clean_rows in
  let final_results := final_results_text (py_str E sql_query) table_str in
  ret (PStr table_str).

(** ** Tool dispatch and request routing *)

(** [{"content": [{"type": "text", "text": text}]}] *)
Definition text_content (text : string) : pyval :=
  PList [PDict [("type", PStr "text"); ("text", PStr text)]].

Definition handle_tool_call (E : Env) (params : pyval) : M pyval :=
  tool_name <- lift (py_get params "name") ;;
  arguments <- lift (py_get_default params "arguments" (PDict [])) ;;
  (* Decode string args if needed *)
  match (match arguments with
         | PStr s =>
             match json_loads E s with
             | Ok decoded => Some decoded
             | Raise _ => None
             end
         | _ => Some arguments
         end) with
  | None =>
      ret (PDict [
        ("isError", PBool true);
        ("content", text_content
                      "Invalid arguments: expected object or JSON string.")
      ])
  | Some arguments =>
      if py_eq_str tool_name "get_list_of_datasets_by_project_id" then
        data <- get_list_of_datasets_by_project_id E arguments ;;
        ret (PDict [("content", text_content (py_str E data))])
      else if py_eq_str tool_name "get_table_schema" then
        data <- get_table_schema E arguments ;;
        ret (PDict [("content", text_content (py_str E data))])
      else if py_eq_str tool_name "create_custom_sql_query_to_review" then
        data <- create_custom_sql_query_to_review E arguments ;;
        ret (PDict [("content", text_content (py_str E data))])
      else if py_eq_str tool_name "run_sql_query" then
        data <- run_sql_query_via_bq_api E arguments ;;
        ret (PDict [("content", text_content (py_str E data))])
      else
        ret (PDict [
          ("isError", PBool true);
          ("content", text_content ("Tool not found: " ++ py_str E tool_name))
        ])
  end.

Definition handle_request (E : Env) (method : string) (params : pyval)
  : M pyval :=
  if String.eqb method "initialize" then ret handle_initialize
  else if String.eqb method "tools/list" then ret handle_tools_list
  else if String.eqb method "tools/call" then handle_tool_call E params
  else
    (* Let app.py wrap unknown methods into a proper JSON-RPC error *)
    raise (mk_exn ValueError ("Method not found: " ++ method)).

(** ** Reading the results *)

(** A field of a result dictionary. *)
Definition dict_field (k : string) (v : pyval) : option pyval :=
  match v with
  | PDict d => dict_lookup k d
  | _ => None
  end.

(** A failure result carries [isError: true]; a success has no such
    field. *)
Definition is_failure (r : pyval) : bool :=
  match dict_field "isError" r with
  | Some (PBool true) => true
  | _ => false
  end.

(** The text of a result whose content is one text element. *)
Definition result_text (r : pyval) : option string :=
  match dict_field "content" r with
  | Some (PList [PDict [("type", PStr "text"); ("text", PStr t)]]) => Some t
  | _ => None
  end.

(** The handler [handle_tool_call] runs for a tool name: the branches of
    its [if]/[elif] chain. *)
Definition registered_handler (tool_name : pyval)
  : option (Env -> pyval -> M pyval) :=
  if py_eq_str tool_name "get_list_of_datasets_by_project_id" then
    Some get_list_of_datasets_by_project_id
  else if py_eq_str tool_name "get_table_schema" then
    Some get_table_schema
  else if py_eq_str tool_name "create_custom_sql_query_to_review" then
    Some create_custom_sql_query_to_review
  else if py_eq_str tool_name "run_sql_query" then
    Some run_sql_query_via_bq_api
  else None.


(** The arguments a handler receives: a string is decoded first; [None]
    when the string does not decode. *)
Definition decoded_arguments (E : Env) (arguments : pyval) : option pyval :=
  match arguments with
  | PStr s =>
      match json_loads E s with
      | Ok decoded => Some decoded
      | Raise _ => None
      end
  | _ => Some arguments
  end.

(** The descriptors of a [tools/list] result and their fields. *)
Definition tools_of (v : pyval) : list pyval :=
  match dict_field "tools" v with
  | Some (PList l) => l
  | _ => []
  end.

Definition descriptor_name (d : pyval) : pyval :=
  match dict_field "name" d with
  | Some n => n
  | None => PNone
  end.

Definition input_schema (d : pyval) : pyval :=
  match dict_field "inputSchema" d with
  | Some s => s
  | None => PNone
  end.

Definition descriptor_required (d : pyval) : list pyval :=
  match dict_field "required" (input_schema d) with
  | Some (PList l) => l
  | _ => []
  end.

Definition descriptor_additional_properties (d : pyval) : option pyval :=
  dict_field "additionalProperties" (input_schema d).

(** Two argument mappings that differ at most at the key [k]. *)
Definition agree_except (k : string) (a1 a2 : dict) : Prop :=
  forall k', k' <> k -> dict_lookup k' a1 = dict_lookup k' a2.

(** A handler requires the argument [k] when what it does can change with
    the value found at [k], everything else being equal. *)
Definition handler_depends_on (h : Env -> pyval -> M pyval) (k : string)
  : Prop :=
  exists E a1 a2, agree_except k a1 a2 /\ h E (PDict a1) <> h E (PDict a2).

(** The keys each handler looks up in its arguments. *)
Definition keys_read (tool_name : pyval) : list string :=
  if py_eq_str tool_name "get_list_of_datasets_by_project_id" then []
  else if py_eq_str tool_name "get_table_schema" then ["table_id"]
  else if py_eq_str tool_name "create_custom_sql_query_to_review" then
    ["question"; "table_id"]
  else if py_eq_str tool_name "run_sql_query" then ["sql_query"]
  else [].

(** The two shapes of result [handle_tool_call] builds. *)
Definition failure_result (text : string) : pyval :=
  PDict [("isError", PBool true); ("content", text_content text)].

Definition success_result (text : string) : pyval :=
  PDict [("content", text_content text)].

(** The parameters of a [tools/call] request. *)
Definition tool_call (name : string) (arguments : pyval) : pyval :=
  PDict [("name", PStr name); ("arguments", arguments)].

(** The answer of the text-generation provider that carries one candidate
    text. *)
Definition candidates_json (text : pyval) : pyval :=
  PDict [("candidates", PList [
    PDict [("content", PDict [("parts", PList [PDict [("text", text)]])])]])].

Definition candidate_response (text : pyval) : Response :=
  {| raise_for_status := None; response_json := Ok (candidates_json text) |}.

(** The dry-run configuration of [check_query_validity_and_cost]. *)
Definition dry_run_config : QueryJobConfig :=
  {| dry_run := true; use_query_cache := false |}.

(** ** The statements of the specification that the code does not meet *)

(** Every exception of a tool handler becomes a failure result of the
    dispatcher. *)
Definition handler_exceptions_become_failures : Prop :=
  forall E params tool_name arguments a h e,
    py_get params "name" = Ok tool_name ->
    py_get_default params "arguments" (PDict []) = Ok arguments ->
    decoded_arguments E arguments = Some a ->
    registered_handler tool_name = Some h ->
    outcome (h E a) = Raise e ->
    exists r, outcome (handle_tool_call E params) = Ok r
              /\ is_failure r = true.

(** A call of an unregistered tool gives a failure result whose text names
    the tool. *)
Definition unknown_tool_failure_names_tool : Prop :=
  forall E p tool_name,
    py_get (PDict p) "name" = Ok tool_name ->
    registered_handler tool_name = None ->
    exists r t, outcome (handle_tool_call E (PDict p)) = Ok r
                /\ is_failure r = true
                /\ result_text r = Some t
                /\ Embeds t (py_str E tool_name).

(** The required list of every descriptor is the set of arguments its
    handler requires. *)
Definition required_lists_match_handlers : Prop :=
  forall d h k,
    In d (tools_of handle_tools_list) ->
    registered_handler (descriptor_name d) = Some h ->
    (In (PStr k) (descriptor_required d) <-> handler_depends_on h k).


(** The float that stands for [k] millionths: the binary64 number nearest
    to the decimal [k / 10^6]. *)
Definition micros_float (k : Z) : spec_float :=
  match k with
  | Z0 => S754_zero false
  | Zpos p => py_float_lit p 1000000
  | Zneg p => SFopp (py_float_lit p 1000000)
  end.



(** A review whose question, table identifier or credential is missing
    fails with a [ValueError], and no network call has been made by
    then. *)
Definition configuration_errors_precede_network_calls : Prop :=
  forall E a question table_id,
    py_get (PDict a) "question" = Ok question ->
    py_get (PDict a) "table_id" = Ok table_id ->
    py_truthy question = false
    \/ py_truthy table_id = false
    \/ env_value_missing (os_getenv E "GOOGLE_AI_KEY") = true ->
    exists msg,
      outcome (create_custom_sql_query_to_review E (PDict a))
      = Raise (mk_exn ValueError msg)
      /\ existsb is_network_call
           (trace (create_custom_sql_query_to_review E (PDict a)))
         = false.

(** ** Sample environments

    Concrete outside worlds, on which the functions are run. *)
Module Sample.

(** A rendering of values in the manner of [repr], right for the values
    used below: strings without quotes or escapes, no floats. *)
Fixpoint render (v : pyval) : string :=
  match v with
  | PNone => "None"
  | PBool true => "True"
  | PBool false => "False"
  | PInt z => str_of_Z z
  | PFloat _ => "nan"
  | PStr s => sq ++ s ++ sq
  | PList l => "[" ++ join ", " (map render l) ++ "]"
  | PDict d =>
      "{" ++ join ", "
               (map (fun kv =>
                       match kv with
                       | (k, x) => sq ++ k ++ "': " ++ render x
                       end) d) ++ "}"
  end.

Definition function_repr : string :=
  "<function generate_sql_query at 0x7f3a5c1d2e50>".

(** The arguments of the scenario, as a JSON text and decoded. *)
Definition encoded_arguments : string :=
  "{" ++ dq ++ "sql_query" ++ dq ++ ":" ++ dq ++ "SELECT 1" ++ dq ++ ","
  ++ dq ++ "confirmation_key" ++ dq ++ ":" ++ dq ++ "x" ++ dq ++ "}".

Definition decoded_object : dict :=
  [("sql_query", PStr "SELECT 1"); ("confirmation_key", PStr "x")].

(** A decoder that knows the scenario's text and the empty object. *)
Definition loads (s : string) : result pyval :=
  if String.eqb s encoded_arguments then Ok (PDict decoded_object)
  else if String.eqb s "{}" then Ok (PDict [])
  else Raise (MkExn JSONDecodeError "Expecting value"
                "Expecting value: line 1 column 1 (char 0)").

Definition users_table : Table :=
  {| schema := [
       {| to_api_repr := [("name", PStr "id"); ("type", PStr "INTEGER");
                          ("mode", PStr "REQUIRED")] |};
       {| to_api_repr := [("name", PStr "name"); ("type", PStr "STRING");
                          ("mode", PStr "NULLABLE")] |}
     ] |}.

Definition table_not_found : exn :=
  MkExn NotFound "Not found: Table" "404 Not found: Table".

Definition syntax_error : exn :=
  MkExn BadRequest "Syntax error: Unexpected identifier SELEC at [1:1]"
    "400 Syntax error: Unexpected identifier SELEC at [1:1]".

Definition connection_lost : exn :=
  MkExn ConnectionError "Connection aborted." "Connection aborted.".

(** The warehouse knows the table [proj.ds.users] only. *)
Definition get_table (table_id : pyval) : result Table :=
  if py_eq_str table_id "proj.ds.users" then Ok users_table
  else Raise table_not_found.

(** A dry run of any statement estimates [bytes] bytes; a real run of
    [SELECT 1] gives one row. *)
Definition query_ok (bytes : Z) (sql : pyval)
    (job_config : option QueryJobConfig) : result QueryJob :=
  match job_config with
  | Some _ =>
      Ok {| total_bytes_processed := Some bytes; job_rows := Ok [] |}
  | None =>
      if py_eq_str sql "SELECT 1" then
        Ok {| total_bytes_processed := Some 0;
              job_rows := Ok [[("f0_", CellJson (PInt 1))]] |}
      else Raise syntax_error
  end.

(** The warehouse rejects every statement, or cannot be reached. *)
Definition query_rejected (sql : pyval)
    (job_config : option QueryJobConfig) : result QueryJob :=
  Raise syntax_error.

Definition query_unreachable (sql : pyval)
    (job_config : option QueryJobConfig) : result QueryJob :=
  Raise connection_lost.

(** The provider answers every request with one candidate text. *)
Definition post_candidate (text : string) (url : string) (payload : pyval)
  : result Response :=
  Ok (candidate_response (PStr text)).

Definition env (credential : option string)
    (query : pyval -> option QueryJobConfig -> result QueryJob)
    (post : string -> pyval -> result Response) : Env :=
  {| os_getenv := fun name =>
       if String.eqb name "GOOGLE_AI_KEY" then credential else None;
     now_strftime := "2026-01-15 09:30:00";
     builtin_str := render;
     generate_sql_query_repr := function_repr;
     json_loads := loads;
     (* a stand-in for the table layout: the rows, rendered as a list *)
     dataframe_to_string := fun rows => render (PList (map PDict rows));
     client_list_datasets := fun _ => Ok [];
     client_list_tables := fun _ => Ok [];
     client_get_table := get_table;
     client_query := query;
     requests_post := post |}.

(** No credential, an empty warehouse that accepts every statement. *)
Definition plain : Env := env None (query_ok 0) (post_candidate "SELECT 1").

(** The provider wrote [SELEC 1]; the warehouse rejects it. *)
Definition rejecting : Env :=
  env (Some "key") query_rejected (post_candidate "SELEC 1").

(** The provider wrote [SELECT 1]; the dry run does not get through. *)
Definition unreachable : Env :=
  env (Some "key") query_unreachable (post_candidate "SELECT 1").

(** Every dry run estimates 2 TiB. *)
Definition two_tib : Env :=
  env None (query_ok (2 * 2 ^ 40)) (post_candidate "SELECT 1").

Definition two_tib_estimate : dict :=
  [("status", PStr "VALID");
   ("message", PStr "This query is valid.");
   ("estimated_cost_usd", PFloat (py_float_lit 125 10));
   ("bytes_processed", PInt 2199023255552)].



Definition question : pyval := PStr "how many users are there".
Definition users_table_id : pyval := PStr "proj.ds.users".

Definition users_schema : pyval :=
  PList (map (fun field => PDict (to_api_repr field)) (schema users_table)).

End Sample.

(** ** Further readings of the results and further sample worlds *)

(** The lines the loop of [get_list_of_datasets_by_project_id] appends for
    one dataset. *)
Definition dataset_block (E : Env) (dataset : Dataset) : list string :=
  dataset_line (dataset_id dataset)
  :: match client_list_tables E dataset with
     | Ok (table :: tables) =>
         map (fun table => table_line (table_id table)) (table :: tables)
     | Ok [] => [no_tables_line]
     | Raise e => [table_error_line (exn_str e)]
     end.

(** The datasets the listing gets to see. *)
Definition listed_datasets (E : Env) : list Dataset :=
  match client_list_datasets E project_id with
  | Ok datasets => datasets
  | Raise _ => []
  end.

(** A float that is neither negative nor not-a-number. *)
Definition float_nonneg (f : spec_float) : bool :=
  match f with
  | S754_zero s | S754_infinity s | S754_finite s _ _ => negb s
  | S754_nan => false
  end.

(** A float that is a number and has the sign bit [s]. *)
Definition has_sign (s : bool) (f : spec_float) : Prop :=
  match f with
  | S754_zero s' | S754_infinity s' | S754_finite s' _ _ => s' = s
  | S754_nan => False
  end.

(** A column description from which a line of the prompt can be made. *)
Definition has_schema_keys (col : pyval) : bool :=
  match col with
  | PDict d => dict_has "name" d && dict_has "type" d && dict_has "mode" d
  | _ => false
  end.

Definition is_dict (v : pyval) : bool :=
  match v with
  | PDict _ => true
  | _ => false
  end.

(** The line of the prompt for a column. *)
Definition schema_line_of (E : Env) (col : pyval) : string :=
  schema_text_line
    (py_str E (match dict_field "name" col with Some v => v | None => PNone end))
    (py_str E (match dict_field "type" col with Some v => v | None => PNone end))
    (py_str E (match dict_field "mode" col with Some v => v | None => PNone end)).

(** The events of a review: a schema fetch, a request to the provider, a
    dry run, the trace message.  A real run and the listing calls are not
    among them. *)
Definition review_event (ev : event) : bool :=
  match ev with
  | EvGetTable _ | EvHttpPost _ _ | EvPrint _ => true
  | EvQuery _ (Some cfg) => dry_run cfg
  | EvQuery _ None => false
  | EvListDatasets _ | EvListTables _ => false
  end.

(** The request [generate_sql_query] sends. *)
Definition gemini_payload (E : Env) (system_prompt : string)
    (question : pyval) : pyval :=
  PDict [
    ("system_instruction", PDict [
      ("parts", PList [PDict [("text", PStr system_prompt)]])
    ]);
    ("contents", PList [
      PDict [
        ("role", PStr "user");
        ("parts", PList [PDict [("text", PStr (py_str E question))]])
      ]
    ]);
    ("generationConfig", PDict [
      ("temperature", PFloat (py_float_lit 1 10));
      ("topK", PInt 40);
      ("topP", PFloat (py_float_lit 95 100));
      ("maxOutputTokens", PInt 4096)
    ])
  ].

Definition gemini_request (E : Env) (system_prompt : string)
    (question : pyval) : event :=
  EvHttpPost
    (gemini_url "gemini-2.5-flash"
       (env_value_text (os_getenv E "GOOGLE_AI_KEY")))
    (gemini_payload E system_prompt question).

(** The answer to the request of [generate_sql_query], decoded: what
    [requests.post], [raise_for_status] and [response.json] give in turn. *)
Definition provider_answer (E : Env) (system_prompt : string)
    (question : pyval) : result pyval :=
  match requests_post E
          (gemini_url "gemini-2.5-flash"
             (env_value_text (os_getenv E "GOOGLE_AI_KEY")))
          (gemini_payload E system_prompt question) with
  | Ok response =>
      match raise_for_status response with
      | Some e => Raise e
      | None => response_json response
      end
  | Raise e => Raise e
  end.

Definition and_then {A B} (r : result A) (k : A -> result B) : result B :=
  match r with
  | Ok a => k a
  | Raise e => Raise e
  end.

(** ['candidates' in result and len(result['candidates']) > 0] *)
Definition has_candidates (answer : pyval) : result bool :=
  and_then (py_contains_str answer "candidates") (fun present =>
  if present : bool then
    and_then (py_getitem answer "candidates") (fun candidates =>
    and_then (py_len candidates) (fun n => Ok (0 <? n)))
  else Ok false).

(** [result['candidates'][0]['content']['parts'][0]['text']] *)
Definition candidate_text (answer : pyval) : result pyval :=
  and_then (py_getitem answer "candidates") (fun candidates =>
  and_then (py_getitem0 candidates) (fun candidate =>
  and_then (py_getitem candidate "content") (fun content =>
  and_then (py_getitem content "parts") (fun parts =>
  and_then (py_getitem0 parts) (fun part =>
  py_getitem part "text"))))).

(** [query_status['estimated_cost_usd']] on an estimate without the
    field. *)
Definition no_cost_field : exn :=
  MkExn KeyError "estimated_cost_usd" (sq ++ "estimated_cost_usd" ++ sq).

(** What can go wrong once [generate_sql_query] has built its request: the
    provider does not give a decoded answer (the request does not get
    through, the status is an error, the body is not JSON); the answer
    cannot be searched for candidates; the first candidate does not have
    the expected shape; or the dry run of the candidate is classified
    ERROR, and the cost is read from an estimate that has none. *)
Inductive synthesis_cause (E : Env) (system_prompt : string)
    (question : pyval) (cause : exn) : Prop :=
| cause_no_answer :
    provider_answer E system_prompt question = Raise cause ->
    synthesis_cause E system_prompt question cause
| cause_no_candidates answer :
    provider_answer E system_prompt question = Ok answer ->
    has_candidates answer = Raise cause ->
    synthesis_cause E system_prompt question cause
| cause_no_candidate_text answer :
    provider_answer E system_prompt question = Ok answer ->
    has_candidates answer = Ok true ->
    candidate_text answer = Raise cause ->
    synthesis_cause E system_prompt question cause
| cause_no_estimate answer sql d :
    provider_answer E system_prompt question = Ok answer ->
    has_candidates answer = Ok true ->
    candidate_text answer = Ok sql ->
    outcome (check_query_validity_and_cost E sql) = Ok (PDict d) ->
    dict_lookup "status" d = Some (PStr "ERROR") ->
    cause = no_cost_field ->
    synthesis_cause E system_prompt question cause.

(** The exception the [except] clauses of [generate_sql_query] raise for a
    cause. *)
Definition gemini_failure (cause : exn) : exn :=
  mk_exn Exception
    ((if isinstance cause RequestException
      then "Gemini API request failed: "
      else "Error processing Gemini API response: ") ++ exn_str cause).

(** What [generate_sql_query] does to the outside once it has sent its
    request: nothing more, or one dry run, or one dry run and the trace
    message of the INVALID branch. *)
Definition review_trace_shape (request : event) (tr : list event) : Prop :=
  tr = [request]
  \/ (exists sql, tr = [request; EvQuery sql (Some dry_run_config)])
  \/ (exists sql, tr = [request; EvQuery sql (Some dry_run_config);
                        EvPrint "invalid"]).

Module World.

(** A project with three datasets: one with two tables, one empty, one whose
    tables cannot be listed. *)
Definition sales : Dataset := {| dataset_id := "sales" |}.
Definition empty : Dataset := {| dataset_id := "staging" |}.
Definition locked : Dataset := {| dataset_id := "finance" |}.

Definition access_denied : exn :=
  MkExn Forbidden "Access Denied: Dataset finance"
    "403 Access Denied: Dataset finance".

Definition list_tables (dataset : Dataset) : result (list TableListItem) :=
  if String.eqb (dataset_id dataset) "sales" then
    Ok [{| table_id := "orders" |}; {| table_id := "customers" |}]
  else if String.eqb (dataset_id dataset) "staging" then Ok []
  else Raise access_denied.

(** [base], with another warehouse content and provider. *)
Definition rebuild (base : Env)
    (datasets : result (list Dataset))
    (post : string -> pyval -> result Response) : Env :=
  {| os_getenv := os_getenv base;
     now_strftime := now_strftime base;
     builtin_str := builtin_str base;
     generate_sql_query_repr := generate_sql_query_repr base;
     json_loads := json_loads base;
     dataframe_to_string := dataframe_to_string base;
     client_list_datasets := fun _ => datasets;
     client_list_tables := list_tables;
     client_get_table := client_get_table base;
     client_query := client_query base;
     requests_post := post |}.

Definition populated : Env :=
  rebuild Sample.plain (Ok [sales; empty; locked])
    (Sample.post_candidate "SELECT 1").

(** A credential, a warehouse that accepts every statement, and a provider
    that answers without any candidate. *)
Definition post_nothing (url : string) (payload : pyval) : result Response :=
  Ok {| raise_for_status := None;
        response_json := Ok (PDict [("candidates", PList [])]) |}.

Definition silent : Env :=
  rebuild (Sample.env (Some "key") (Sample.query_ok 1024)
             (Sample.post_candidate "SELECT 1"))
    (Ok []) post_nothing.

(** The provider cannot be reached. *)
Definition timed_out : exn :=
  MkExn Timeout "Read timed out." "Read timed out.".

Definition post_timeout (url : string) (payload : pyval) : result Response :=
  Raise timed_out.

Definition offline : Env :=
  rebuild (Sample.env (Some "key") (Sample.query_ok 1024)
             (Sample.post_candidate "SELECT 1"))
    (Ok []) post_timeout.

(** The provider answers with a body that is not JSON. *)
Definition not_json : exn :=
  MkExn RequestsJSONDecodeError "Expecting value"
    "Expecting value: line 1 column 1 (char 0)".

Definition post_garbled (url : string) (payload : pyval) : result Response :=
  Ok {| raise_for_status := None; response_json := Raise not_json |}.

Definition garbled : Env :=
  rebuild (Sample.env (Some "key") (Sample.query_ok 1024)
             (Sample.post_candidate "SELECT 1"))
    (Ok []) post_garbled.

(** A credential, a provider that writes [SELECT 1], a dry run of 1 MiB. *)
Definition accepting : Env :=
  Sample.env (Some "key") (Sample.query_ok (2 ^ 20))
    (Sample.post_candidate "SELECT 1").

(** The prompt of the sample question about the sample table. *)
Definition users_prompt : string :=
  system_prompt_text "2026-01-15 09:30:00"
    (join nl ["- id (INTEGER, REQUIRED)"; "- name (STRING, NULLABLE)"])
    "proj.ds.users" "how many users are there".

(** The report on the populated project. *)
Definition report : string :=
  match outcome (get_list_of_datasets_by_project_id populated (PDict [])) with
  | Ok (PStr text) => text
  | _ => EmptyString
  end.

End World.

(** * Properties *)

Unset Implicit Arguments.

(** ** Strings *)

Lemma append_assoc (a b c : string) : (a ++ b) ++ c = a ++ b ++ c.
Proof.
  induction a as [|ch a IH]; simpl.
  - reflexivity.
  - now rewrite IH.
Qed.

Lemma embeds_middle (a s b : string) : Embeds (a ++ s ++ b) s.
Proof. now exists a, b. Qed.

Lemma embeds_after (a t s : string) : Embeds t s -> Embeds (a ++ t) s.
Proof.
  intros (x & y & ->). exists (a ++ x), y. now rewrite append_assoc.
Qed.

Lemma embeds_cons (ch : ascii) (t s : string) :
  Embeds t s -> Embeds (String ch t) s.
Proof. intros (x & y & ->). now exists (String ch x), y. Qed.

Lemma prefix_spec (s t : string) :
  prefix s t = true <-> exists r, t = s ++ r.
Proof.
  revert t. induction s as [|c s IH]; intros t.
  - split; [now exists t | now destruct t].
  - destruct t as [|c' t]; simpl.
    + split; [discriminate | intros (r & Hr); discriminate].
    + destruct (ascii_dec c c') as [->|Hne].
      * rewrite IH. split; intros (r & Hr); exists r.
        -- now rewrite Hr.
        -- now injection Hr.
      * split; [discriminate | intros (r & Hr)].
        injection Hr as Hc _. now elim Hne.
Qed.

Lemma is_infix_spec (s t : string) : is_infix s t = true <-> Embeds t s.
Proof.
  induction t as [|c t IH].
  - cbn [is_infix]. rewrite orb_false_r, prefix_spec. split.
    + intros (r & ->). exists EmptyString, r. reflexivity.
    + intros (x & y & H). destruct x; [now exists y | discriminate].
  - cbn [is_infix]. rewrite orb_true_iff, prefix_spec, IH. split.
    + intros [(r & ->) | H].
      * now exists EmptyString, r.
      * now apply embeds_cons.
    + intros (x & y & H). destruct x as [|c' x].
      * left. now exists y.
      * right. exists x, y. now injection H.
Qed.

Lemma not_infix_not_embedded (s t : string) :
  is_infix s t = false -> ~ Embeds t s.
Proof.
  intros H He. apply is_infix_spec in He. congruence.
Qed.

(** ** The effect monad *)

(** Every exception is an [Exception]: [except Exception] catches all of
    them, as [try_except] does. *)
Lemma isinstance_exception (e : exn) : isinstance e Exception = true.
Proof. destruct e as [[] msg str]; reflexivity. Qed.

Lemma bind_lift_ok {A B} (a : A) (k : A -> M B) : bind (lift (Ok a)) k = k a.
Proof. unfold lift, bind. now destruct (k a). Qed.

Lemma bind_ret {A B} (a : A) (k : A -> M B) : bind (ret a) k = k a.
Proof. apply bind_lift_ok. Qed.

Lemma outcome_bind_raise {A B} (m : M A) (k : A -> M B) (e : exn) :
  outcome m = Raise e -> bind m k = (trace m, Raise e).
Proof. destruct m as [tr r]. simpl. now intros ->. Qed.

Lemma bind_then_ret {A B} (m : M A) (f : A -> B) :
  bind m (fun a => ret (f a))
  = (trace m, match outcome m with Ok a => Ok (f a) | Raise e => Raise e end).
Proof.
  destruct m as [tr [a|e]]; simpl; [|reflexivity].
  now rewrite app_nil_r.
Qed.

Lemma outcome_bind {A B} (m : M A) (k : A -> M B) :
  outcome (bind m k)
  = match outcome m with Ok a => outcome (k a) | Raise e => Raise e end.
Proof.
  destruct m as [tr [a|e]]; simpl; [|reflexivity]. now destruct (k a).
Qed.

Lemma outcome_try_except {A} (m : M A) (h : exn -> M A) :
  outcome (try_except m h)
  = match outcome m with Ok a => Ok a | Raise e => outcome (h e) end.
Proof.
  destruct m as [tr [a|e]]; simpl; [reflexivity|]. now destruct (h e).
Qed.

(** Steps of a computation on literal data: lookups in dictionaries whose
    keys are known, lengths of lists that are written out. *)
Ltac run_literals :=
  cbn [raise_for_status response_json
       py_contains_str py_getitem py_getitem0 py_len py_eq_str
       dict_has dict_lookup dict_field String.eqb Ascii.eqb Bool.eqb andb
       List.length Z.of_nat Pos.of_succ_nat Z.ltb Z.compare Pos.succ].

Ltac run_pure :=
  repeat (progress (rewrite ?bind_lift_ok, ?bind_ret; run_literals)).

(** ** CostGuard: the dry-run classification *)

(** The three dictionaries the function can return. *)
Lemma check_query_validity_and_cost_cases (E : Env) (sql : pyval) :
  outcome (check_query_validity_and_cost E sql) =
  match client_query E sql (Some dry_run_config) with
  | Ok job =>
      match truediv_bytes (total_bytes_processed job) (1024 ^ 4) with
      | Ok terabytes =>
          Ok (PDict [
            ("status", PStr "VALID");
            ("message", PStr "This query is valid.");
            ("estimated_cost_usd",
             PFloat (py_round
                       (py_float_mul terabytes (py_float_lit 625 100)) 6));
            ("bytes_processed", bytes_value (total_bytes_processed job))])
      | Raise e =>
          Ok (PDict [
            ("status", PStr "ERROR");
            ("message", PStr "An unexpected system error occurred.");
            ("error_details", PStr (exn_str e))])
      end
  | Raise e =>
      if isinstance e GoogleAPICallError then
        Ok (PDict [
          ("status", PStr "INVALID");
          ("message", PStr "The query cannot be executed.");
          ("error_details", PStr (exn_message e))])
      else
        Ok (PDict [
          ("status", PStr "ERROR");
          ("message", PStr "An unexpected system error occurred.");
          ("error_details", PStr (exn_str e))])
  end.
Proof.
  unfold check_query_validity_and_cost, dry_run_config.
  destruct (client_query E sql _) as [job|e]; cbn [call bind try_except].
  - unfold truediv_bytes.
    destruct (total_bytes_processed job) as [b|]; [|reflexivity].
    unfold py_int_truediv.
    destruct (1024 ^ 4) eqn:Hd; [discriminate Hd| |]; cbn [lift];
      (destruct b; [reflexivity| |]);
      match goal with
      | |- context [SFdiv ?p ?m ?x ?y] => destruct (SFdiv p m x y)
      end; reflexivity.
  - now destruct (isinstance e GoogleAPICallError).
Qed.

(** The arithmetic of the cost never raises a warehouse API error. *)
Lemma truediv_bytes_raises_no_api_error (b : option Z) (d : Z) (e : exn) :
  truediv_bytes b d = Raise e -> isinstance e GoogleAPICallError = false.
Proof.
  unfold truediv_bytes, py_int_truediv.
  destruct b as [b|]; [|now intros [= <-]].
  destruct d; [now intros [= <-]| |];
    (destruct b; [discriminate| |]);
    match goal with
    | |- context [SFdiv ?p ?m ?x ?y] => destruct (SFdiv p m x y)
    end; try discriminate; now intros [= <-].
Qed.

Ltac read_status :=
  change (dict_lookup "status" (("status", ?v) :: ?rest)) with (Some v) in *.

Ltac absurd_status :=
  match goal with
  | H : Some (PStr _) = Some (PStr _) |- _ => discriminate H
  end.

Lemma one_status_of (d : dict) (s : string) :
  In s ["VALID"; "INVALID"; "ERROR"] ->
  dict_lookup "status" d = Some (PStr s) ->
  exists! s', In s' ["VALID"; "INVALID"; "ERROR"]
              /\ dict_lookup "status" d = Some (PStr s').
Proof.
  intros Hin Hs. exists s. split; [now split|].
  intros s' [_ Hs']. congruence.
Qed.

(** C2. [check_query_validity_and_cost] never raises: for every candidate
    statement it returns a dictionary whose status is exactly one of VALID,
    INVALID and ERROR.  The status is INVALID exactly when the dry run
    raised an exception of the warehouse API-error class
    [GoogleAPICallError]; VALID exactly when the dry run returned a job
    whose byte count gave a cost; ERROR for every other exception. *)
Theorem check_query_validity_and_cost_classification
    (E : Env) (sql : pyval) :
  exists d,
    outcome (check_query_validity_and_cost E sql) = Ok (PDict d)
    /\ (exists! s, In s ["VALID"; "INVALID"; "ERROR"]
                   /\ dict_lookup "status" d = Some (PStr s))
    /\ (dict_lookup "status" d = Some (PStr "VALID") <->
        exists job terabytes,
          client_query E sql (Some dry_run_config) = Ok job
          /\ truediv_bytes (total_bytes_processed job) (1024 ^ 4)
             = Ok terabytes)
    /\ (dict_lookup "status" d = Some (PStr "INVALID") <->
        exists e,
          client_query E sql (Some dry_run_config) = Raise e
          /\ isinstance e GoogleAPICallError = true)
    /\ (dict_lookup "status" d = Some (PStr "ERROR") <->
        (exists e,
           client_query E sql (Some dry_run_config) = Raise e
           /\ isinstance e GoogleAPICallError = false)
        \/ (exists job e,
              client_query E sql (Some dry_run_config) = Ok job
              /\ truediv_bytes (total_bytes_processed job) (1024 ^ 4)
                 = Raise e)).
Proof.
  rewrite check_query_validity_and_cost_cases.
  destruct (client_query E sql (Some dry_run_config)) as [job|e] eqn:Hq.
  - destruct (truediv_bytes (total_bytes_processed job) (1024 ^ 4))
      as [t|e] eqn:Ht; eexists; (split; [reflexivity|]).
    + split; [apply one_status_of with "VALID"; [simpl; auto | reflexivity]|]; read_status.
      split; [split; [intros _; now exists job, t | reflexivity]|].
      split; (split; [intros H; absurd_status|]).
      * intros (e & He & _). discriminate He.
      * intros [(e & He & _) | (job' & e & Hj & He)]; [discriminate He|].
        injection Hj as <-. congruence.
    + split; [apply one_status_of with "ERROR"; [simpl; auto | reflexivity]|]; read_status.
      split; [split; [intros H; absurd_status|]|].
      * intros (job' & t & Hj & Ht'). injection Hj as <-. congruence.
      * split; [split; [intros H; absurd_status|]|].
        -- intros (e' & He & _). discriminate He.
        -- split; [intros _; right; now exists job, e | reflexivity].
  - destruct (isinstance e GoogleAPICallError) eqn:Hi; eexists;
      (split; [reflexivity|]).
    + split; [apply one_status_of with "INVALID"; [simpl; auto | reflexivity]|]; read_status.
      split; [split; [intros H; absurd_status|]|].
      * intros (job & t & Hj & _). discriminate Hj.
      * split; [split; [intros _; now exists e | reflexivity]|].
        split; [intros H; absurd_status|].
        intros [(e' & He & Hi') | (job & e' & Hj & _)]; [|discriminate Hj].
        injection He as <-. congruence.
    + split; [apply one_status_of with "ERROR"; [simpl; auto | reflexivity]|]; read_status.
      split; [split; [intros H; absurd_status|]|].
      * intros (job & t & Hj & _). discriminate Hj.
      * split; [split; [intros H; absurd_status|]|].
        -- intros (e' & He & Hi'). injection He as <-. congruence.
        -- split; [intros _; left; now exists e | reflexivity].
Qed.

(** ** CostGuard: the sign of the cost *)

Section Rounding.

Variables p m : Z.

Lemma shr_1_nonneg (mrs : shr_record) :
  0 <= shr_m mrs -> 0 <= shr_m (shr_1 mrs).
Proof.
  destruct mrs as [mant r s]. cbn [shr_m]. intros H.
  destruct mant as [|[q|q|]|q]; cbn [shr_1 shr_m]; lia.
Qed.

Lemma iter_pos_invariant {A} (f : A -> A) (P : A -> Prop) :
  (forall x, P x -> P (f x)) ->
  forall n x, P x -> P (iter_pos f n x).
Proof.
  intros Hf. induction n as [n IH|n IH|]; intros x Hx; cbn [iter_pos].
  - apply IH, IH, Hf, Hx.
  - apply IH, IH, Hx.
  - apply Hf, Hx.
Qed.

Lemma shr_fexp_nonneg (mant e : Z) (l : location) :
  0 <= mant -> 0 <= shr_m (fst (shr_fexp p m mant e l)).
Proof.
  intros H. unfold shr_fexp, shr.
  assert (H0 : 0 <= shr_m (shr_record_of_loc mant l))
    by (destruct l as [|[| |]]; exact H).
  destruct (fexp p m (Zdigits2 mant + e) - e) as [|n|n]; cbn [fst];
    try exact H0.
  apply (iter_pos_invariant shr_1 (fun mrs => 0 <= shr_m mrs));
    [apply shr_1_nonneg | exact H0].
Qed.

Lemma round_nearest_even_nonneg (mant : Z) (l : location) :
  0 <= mant -> 0 <= round_nearest_even mant l.
Proof.
  intros H. destruct l as [|[| |]]; cbn [round_nearest_even]; try lia.
  destruct (Z.even mant); lia.
Qed.

(** Rounding a non-negative mantissa keeps the sign and gives a number. *)
Lemma binary_round_aux_sign (s : bool) (mant e : Z) (l : location) :
  0 <= mant -> has_sign s (binary_round_aux p m s mant e l).
Proof.
  intros H. unfold binary_round_aux.
  pose proof (shr_fexp_nonneg mant e l H) as H1.
  destruct (shr_fexp p m mant e l) as [mrs' e']. cbn [fst] in H1.
  pose proof (shr_fexp_nonneg _ e' loc_Exact
                (round_nearest_even_nonneg _ (loc_of_shr_record mrs') H1))
    as H2.
  destruct (shr_fexp p m _ e' loc_Exact) as [mrs'' e'']. cbn [fst] in H2.
  destruct (shr_m mrs'') as [|q|q]; [reflexivity| |lia].
  now destruct (e'' <=? m - p).
Qed.

Lemma SFdiv_sign (sx sy : bool) (mx my : positive) (ex ey : Z) :
  has_sign (xorb sx sy)
    (SFdiv p m (S754_finite sx mx ex) (S754_finite sy my ey)).
Proof.
  cbn [SFdiv]. unfold SFdiv_core_binary.
  match goal with
  | |- context [Z.div_eucl ?a ?b] =>
      pose proof (Z.div_pos a b) as Hq;
      unfold Z.div in Hq; destruct (Z.div_eucl a b) as [q r]
  end.
  apply binary_round_aux_sign. apply Hq; [|reflexivity].
  match goal with
  | |- 0 <= match ?s with _ => _ end =>
      destruct s; [lia | apply Z.shiftl_nonneg; lia | lia]
  end.
Qed.

Lemma SFmul_sign (sx sy : bool) (x : spec_float) (my : positive) (ey : Z) :
  has_sign sx x ->
  has_sign (xorb sx sy) (SFmul p m x (S754_finite sy my ey)).
Proof.
  destruct x as [s|s| |s mx ex]; cbn [has_sign SFmul];
    try (now intros ->); try contradiction.
  intros ->. apply binary_round_aux_sign. lia.
Qed.

End Rounding.

Lemma py_round_sign (s : bool) (x : spec_float) (ndigits : N) :
  has_sign s x -> has_sign s (py_round x ndigits).
Proof.
  destruct x as [s'|s'| |s' mx ex]; cbn [has_sign py_round];
    try (now intros ->); try contradiction.
  intros ->.
  match goal with
  | |- has_sign _ (match ?n with _ => _ end) => destruct n
  end; try reflexivity.
  rewrite <- (xorb_false_r s) at 1. apply SFdiv_sign.
Qed.

Lemma py_int_truediv_sign (b : Z) (d : positive) (q : spec_float) :
  py_int_truediv b (Zpos d) = Ok q -> has_sign (b <? 0) q.
Proof.
  unfold py_int_truediv.
  destruct b as [|a|a].
  - now intros [= <-].
  - pose proof (SFdiv_sign prec emax false false (Z.to_pos (Z.abs (Zpos a)))
                  (Z.to_pos (Z.abs (Zpos d))) 0 0) as Hs.
    change (Zpos a <? 0) with false. change (Zpos d <? 0) with false.
    destruct (SFdiv _ _ _ _); try discriminate; now intros [= <-].
  - pose proof (SFdiv_sign prec emax true false (Z.to_pos (Z.abs (Zneg a)))
                  (Z.to_pos (Z.abs (Zpos d))) 0 0) as Hs.
    change (Zneg a <? 0) with true. change (Zpos d <? 0) with false.
    destruct (SFdiv _ _ _ _); try discriminate; now intros [= <-].
Qed.

(** ** CostGuard: the arithmetic of the cost

    Up to [2^53 / 25] bytes, some 327 TiB, nothing is lost in the two
    float operations: the quotient by [2^40] and its product by [6.25] are
    both exact, and [round] sees the exact cost. *)

















(** ** SqlSynthesizer: configuration errors *)

(** When the question or the table identifier is missing (absent or
    empty), or the provider credential is absent, [generate_sql_query]
    raises a [ValueError] and has done nothing by then. *)
Lemma generate_sql_query_refusal
    (E : Env) (question table_schema table_id : pyval) :
  py_truthy question = false
  \/ py_truthy table_id = false
  \/ env_value_missing (os_getenv E "GOOGLE_AI_KEY") = true ->
  generate_sql_query E question table_schema table_id
  = ([], Raise (mk_exn ValueError
                  (if py_truthy question && py_truthy table_id
                   then "GOOGLE_AI_KEY environment variable is not set"
                   else "question and table_id are required"))).
Proof.
  intros H. unfold generate_sql_query.
  destruct (py_truthy question), (py_truthy table_id);
    cbn [negb orb andb]; try reflexivity.
  destruct H as [H | [H | H]]; try discriminate H.
  now rewrite H.
Qed.

Lemma generate_sql_query_refusal_trace
    (E : Env) (question table_schema table_id : pyval) :
  py_truthy question = false
  \/ py_truthy table_id = false
  \/ env_value_missing (os_getenv E "GOOGLE_AI_KEY") = true ->
  trace (generate_sql_query E question table_schema table_id) = [].
Proof.
  intros H. now rewrite generate_sql_query_refusal.
Qed.

(** Seen from the tool, the schema has been fetched by then; no request
    to the text-generation provider has been made. *)
Lemma create_custom_sql_query_fetches_schema_first
    (E : Env) (a : dict) (question table_id : pyval) :
  py_get (PDict a) "question" = Ok question ->
  py_get (PDict a) "table_id" = Ok table_id ->
  py_truthy question = false
  \/ py_truthy table_id = false
  \/ env_value_missing (os_getenv E "GOOGLE_AI_KEY") = true ->
  trace (create_custom_sql_query_to_review E (PDict a))
  = [EvGetTable table_id].
Proof.
  intros Hq Ht H. unfold create_custom_sql_query_to_review.
  rewrite Hq, Ht, !bind_lift_ok.
  unfold get_table_schema.
  change (py_get (PDict [("table_id", table_id)]) "table_id")
    with (@Ok pyval table_id).
  rewrite bind_lift_ok.
  destruct (client_get_table E table_id) as [table|e]; [|reflexivity].
  cbn [call bind ret].
  pose proof (generate_sql_query_refusal_trace E question
                (PList (map (fun field => PDict (to_api_repr field))
                          (schema table))) table_id H) as Htr.
  destruct (generate_sql_query E question
              (PList (map (fun field => PDict (to_api_repr field))
                        (schema table))) table_id) as [tr r].
  cbn [trace fst] in Htr. subst tr. now destruct r.
Qed.

(** C7, as amended. When the question or the table identifier is missing
    (absent or empty), or the provider credential is absent, the
    synthesizer [generate_sql_query] raises a [ValueError] and does nothing
    else, for any schema.  The tool [create_custom_sql_query_to_review]
    reaches it only after it has fetched the schema: its one call to the
    outside is [client.get_table], with the table identifier as it came
    ([None] when absent), before anything is checked; when that call
    fails its exception is the outcome, and when it returns the outcome is
    the [ValueError].  The provider is not called. *)
Theorem configuration_error_after_schema_fetch
    (E : Env) (a : dict) (question table_id : pyval) :
  py_get (PDict a) "question" = Ok question ->
  py_get (PDict a) "table_id" = Ok table_id ->
  py_truthy question = false
  \/ py_truthy table_id = false
  \/ env_value_missing (os_getenv E "GOOGLE_AI_KEY") = true ->
  let refusal :=
    mk_exn ValueError
      (if py_truthy question && py_truthy table_id
       then "GOOGLE_AI_KEY environment variable is not set"
       else "question and table_id are required") in
  (forall table_schema,
     generate_sql_query E question table_schema table_id
     = ([], Raise refusal))
  /\ trace (create_custom_sql_query_to_review E (PDict a))
     = [EvGetTable table_id]
  /\ outcome (create_custom_sql_query_to_review E (PDict a))
     = match client_get_table E table_id with
       | Ok _ => Raise refusal
       | Raise e => Raise e
       end.
Proof.
  intros Hq Ht H refusal.
  split; [intros table_schema; now apply generate_sql_query_refusal|].
  split;
    [now apply (create_custom_sql_query_fetches_schema_first E a question)|].
  unfold create_custom_sql_query_to_review.
  rewrite Hq, Ht, !bind_lift_ok. unfold get_table_schema.
  change (py_get (PDict [("table_id", table_id)]) "table_id")
    with (@Ok pyval table_id).
  rewrite bind_lift_ok.
  destruct (client_get_table E table_id) as [table|e]; [|reflexivity].
  cbn [call bind ret]. rewrite generate_sql_query_refusal by exact H.
  reflexivity.
Qed.

Lemma configuration_error_after_schema_fetch_witness :
  (forall table_schema,
     generate_sql_query Sample.plain PNone table_schema Sample.users_table_id
     = ([], Raise (mk_exn ValueError "question and table_id are required")))
  /\ trace (create_custom_sql_query_to_review Sample.plain
              (PDict [("table_id", Sample.users_table_id)]))
     = [EvGetTable Sample.users_table_id]
  /\ outcome (create_custom_sql_query_to_review Sample.plain
                (PDict [("table_id", Sample.users_table_id)]))
     = Raise (mk_exn ValueError "question and table_id are required").
Proof.
  apply (configuration_error_after_schema_fetch Sample.plain
           [("table_id", Sample.users_table_id)] PNone
           Sample.users_table_id);
    [reflexivity | reflexivity | left; reflexivity].
Defined.

(** C7, as stated, fails for the tool.  Called without a question, it
    has asked the warehouse for the schema of the table by the time the
    [ValueError] is raised: the failure does not come before any network
    call. *)
Lemma schema_fetch_precedes_configuration_check :
  create_custom_sql_query_to_review Sample.plain
    (PDict [("table_id", Sample.users_table_id)])
  = ([EvGetTable Sample.users_table_id],
     Raise (mk_exn ValueError "question and table_id are required"))
  /\ is_network_call (EvGetTable Sample.users_table_id) = true
  /\ ~ configuration_errors_precede_network_calls.
Proof.
  split; [reflexivity|]. split; [reflexivity|].
  intros H.
  destruct (H Sample.plain [("table_id", Sample.users_table_id)] PNone
              Sample.users_table_id eq_refl eq_refl (or_introl eq_refl))
    as (msg & _ & Hcalls).
  discriminate Hcalls.
Qed.

(** ** ToolExecutor: the confirmation key *)

(** C6. Two argument mappings with the same [sql_query], whatever else
    they hold ([confirmation_key] included, present or not), make
    [run_sql_query_via_bq_api] do the same thing in the same world, called
    directly or through [tools/call]. *)
Theorem run_sql_query_ignores_confirmation_key (E : Env) (a1 a2 : dict) :
  dict_lookup "sql_query" a1 = dict_lookup "sql_query" a2 ->
  run_sql_query_via_bq_api E (PDict a1) = run_sql_query_via_bq_api E (PDict a2)
  /\ handle_tool_call E (tool_call "run_sql_query" (PDict a1))
     = handle_tool_call E (tool_call "run_sql_query" (PDict a2)).
Proof.
  intros H.
  assert (Hrun : run_sql_query_via_bq_api E (PDict a1)
                 = run_sql_query_via_bq_api E (PDict a2)).
  { unfold run_sql_query_via_bq_api, py_get, py_get_default.
    now rewrite H. }
  split; [exact Hrun|].
  unfold handle_tool_call, tool_call.
  change (py_get (PDict [("name", PStr "run_sql_query");
                         ("arguments", PDict a1)]) "name")
    with (@Ok pyval (PStr "run_sql_query")).
  change (py_get (PDict [("name", PStr "run_sql_query");
                         ("arguments", PDict a2)]) "name")
    with (@Ok pyval (PStr "run_sql_query")).
  change (py_get_default (PDict [("name", PStr "run_sql_query");
                                 ("arguments", PDict a1)]) "arguments"
            (PDict []))
    with (@Ok pyval (PDict a1)).
  change (py_get_default (PDict [("name", PStr "run_sql_query");
                                 ("arguments", PDict a2)]) "arguments"
            (PDict []))
    with (@Ok pyval (PDict a2)).
  rewrite !bind_lift_ok.
  change (py_eq_str (PStr "run_sql_query")
            "get_list_of_datasets_by_project_id") with false.
  change (py_eq_str (PStr "run_sql_query") "get_table_schema") with false.
  change (py_eq_str (PStr "run_sql_query")
            "create_custom_sql_query_to_review") with false.
  change (py_eq_str (PStr "run_sql_query") "run_sql_query") with true.
  cbv iota. now rewrite Hrun.
Qed.

Lemma run_sql_query_ignores_confirmation_key_witness :
  run_sql_query_via_bq_api Sample.plain (PDict Sample.decoded_object)
  = run_sql_query_via_bq_api Sample.plain
      (PDict [("sql_query", PStr "SELECT 1")])
  /\ handle_tool_call Sample.plain
       (tool_call "run_sql_query" (PDict Sample.decoded_object))
     = handle_tool_call Sample.plain
         (tool_call "run_sql_query"
            (PDict [("sql_query", PStr "SELECT 1")])).
Proof.
  apply (run_sql_query_ignores_confirmation_key Sample.plain
           Sample.decoded_object [("sql_query", PStr "SELECT 1")]).
  reflexivity.
Defined.

(** ** Tool dispatch *)

(** [handle_tool_call], with its chain of comparisons read as a lookup of
    the registered handler. *)
Lemma handle_tool_call_dispatch (E : Env) (params : pyval) :
  handle_tool_call E params =
  (tool_name <- lift (py_get params "name") ;;
   arguments <- lift (py_get_default params "arguments" (PDict [])) ;;
   match decoded_arguments E arguments with
   | None =>
       ret (failure_result
              "Invalid arguments: expected object or JSON string.")
   | Some a =>
       match registered_handler tool_name with
       | Some h => data <- h E a ;; ret (success_result (py_str E data))
       | None =>
           ret (failure_result ("Tool not found: " ++ py_str E tool_name))
       end
   end).
Proof.
  unfold handle_tool_call, registered_handler, decoded_arguments.
  destruct (py_get params "name") as [tool_name|e]; [|reflexivity].
  rewrite !bind_lift_ok.
  destruct (py_get_default params "arguments" (PDict [])) as [arguments|e];
    [|reflexivity].
  rewrite !bind_lift_ok.
  destruct (match arguments with
            | PStr s => match json_loads E s with
                        | Ok decoded => Some decoded
                        | Raise _ => None
                        end
            | _ => Some arguments
            end) as [a|]; [|reflexivity].
  destruct (py_eq_str tool_name "get_list_of_datasets_by_project_id");
    [reflexivity|].
  destruct (py_eq_str tool_name "get_table_schema"); [reflexivity|].
  destruct (py_eq_str tool_name "create_custom_sql_query_to_review");
    [reflexivity|].
  destruct (py_eq_str tool_name "run_sql_query"); reflexivity.
Qed.

(** The dispatcher on parameters whose fields are known. *)
Lemma handle_tool_call_known (E : Env) (params tool_name arguments : pyval) :
  py_get params "name" = Ok tool_name ->
  py_get_default params "arguments" (PDict []) = Ok arguments ->
  handle_tool_call E params =
  match decoded_arguments E arguments with
  | None =>
      ret (failure_result "Invalid arguments: expected object or JSON string.")
  | Some a =>
      match registered_handler tool_name with
      | Some h => data <- h E a ;; ret (success_result (py_str E data))
      | None => ret (failure_result ("Tool not found: " ++ py_str E tool_name))
      end
  end.
Proof.
  intros Hn Ha. rewrite handle_tool_call_dispatch, Hn, Ha.
  now rewrite !bind_lift_ok.
Qed.

Lemma handle_request_tools_call (E : Env) (params : pyval) :
  handle_request E "tools/call" params = handle_tool_call E params.
Proof. reflexivity. Qed.

(** The dataset listing catches every exception itself. *)
Lemma inspect_datasets_returns (E : Env) (datasets : list Dataset) :
  forall output_lines,
  exists lines, outcome (inspect_datasets E datasets output_lines) = Ok lines.
Proof.
  induction datasets as [|dataset rest IH]; intros output_lines.
  - now exists output_lines.
  - cbn [inspect_datasets].
    destruct (client_list_tables E dataset) as [[|t tables]|e];
      cbn [call bind try_except ret];
      match goal with
      | |- context [inspect_datasets E rest ?l] =>
          destruct (IH l) as (lines & Hl);
          destruct (inspect_datasets E rest l) as [tr r];
          simpl in Hl; subst r; now exists lines
      end.
Qed.

Lemma get_list_of_datasets_by_project_id_returns (E : Env) (a : pyval) :
  exists text,
    outcome (get_list_of_datasets_by_project_id E a) = Ok (PStr text).
Proof.
  unfold get_list_of_datasets_by_project_id.
  destruct (client_list_datasets E project_id) as [[|dataset rest]|e];
    cbn [call bind try_except ret]; try (eexists; reflexivity).
  match goal with
  | |- context [inspect_datasets E ?ds ?l] =>
      destruct (inspect_datasets_returns E ds l) as (lines & Hl);
      destruct (inspect_datasets E ds l) as [tr r];
      simpl in Hl; subst r
  end.
  cbn [call bind try_except ret]. eexists; reflexivity.
Qed.

(** C4, as amended. An exception raised inside a registered tool handler
    is not caught by the dispatcher: it leaves [handle_tool_call], and
    [handle_request], unchanged, after the effects of the handler.  The
    dataset-listing handler never raises: it always returns a text. *)
Theorem handler_exception_propagates
    (E : Env) (params tool_name arguments a : pyval)
    (h : Env -> pyval -> M pyval) (e : exn) :
  py_get params "name" = Ok tool_name ->
  py_get_default params "arguments" (PDict []) = Ok arguments ->
  decoded_arguments E arguments = Some a ->
  registered_handler tool_name = Some h ->
  outcome (h E a) = Raise e ->
  handle_tool_call E params = (trace (h E a), Raise e)
  /\ handle_request E "tools/call" params = (trace (h E a), Raise e)
  /\ (forall a', exists text,
        outcome (get_list_of_datasets_by_project_id E a') = Ok (PStr text)).
Proof.
  intros Hn Ha Hd Hh He.
  assert (Hcall : handle_tool_call E params = (trace (h E a), Raise e)).
  { rewrite (handle_tool_call_known E params tool_name arguments Hn Ha).
    rewrite Hd, Hh. now apply outcome_bind_raise. }
  split; [exact Hcall|].
  split; [now rewrite handle_request_tools_call|].
  apply get_list_of_datasets_by_project_id_returns.
Qed.

Lemma handler_exception_propagates_witness :
  handle_tool_call Sample.plain
    (tool_call "get_table_schema" (PDict [("table_id", PStr "proj.ds.gone")]))
  = ([EvGetTable (PStr "proj.ds.gone")], Raise Sample.table_not_found)
  /\ handle_request Sample.plain "tools/call"
       (tool_call "get_table_schema"
          (PDict [("table_id", PStr "proj.ds.gone")]))
     = ([EvGetTable (PStr "proj.ds.gone")], Raise Sample.table_not_found)
  /\ (forall a', exists text,
        outcome (get_list_of_datasets_by_project_id Sample.plain a')
        = Ok (PStr text)).
Proof.
  apply (handler_exception_propagates Sample.plain
           (tool_call "get_table_schema"
              (PDict [("table_id", PStr "proj.ds.gone")]))
           (PStr "get_table_schema")
           (PDict [("table_id", PStr "proj.ds.gone")])
           (PDict [("table_id", PStr "proj.ds.gone")])
           get_table_schema Sample.table_not_found);
    reflexivity.
Defined.

(** C4, as stated, fails: the warehouse does not know the table, the
    schema handler raises [NotFound], and so does the dispatcher. *)
Lemma handler_exception_escapes_tool_call :
  outcome (handle_tool_call Sample.plain
             (tool_call "get_table_schema"
                (PDict [("table_id", PStr "proj.ds.gone")])))
  = Raise Sample.table_not_found
  /\ ~ handler_exceptions_become_failures.
Proof.
  split; [reflexivity|]. intros H.
  destruct (H Sample.plain
              (tool_call "get_table_schema"
                 (PDict [("table_id", PStr "proj.ds.gone")]))
              (PStr "get_table_schema")
              (PDict [("table_id", PStr "proj.ds.gone")])
              (PDict [("table_id", PStr "proj.ds.gone")])
              get_table_schema Sample.table_not_found
              eq_refl eq_refl eq_refl eq_refl eq_refl) as (r & Hr & _).
  vm_compute in Hr. discriminate Hr.
Qed.

(** ** Request routing *)

(** C5, as amended. Any method other than [initialize], [tools/list] and
    [tools/call] makes [handle_request] raise [ValueError], with no effect
    and no result.  A [tools/call] for an unregistered tool never raises:
    it returns a failure result, whose text is [Tool not found: <name>],
    unless the arguments are a string that does not decode, in which case
    the text is the invalid-arguments one. *)
Theorem router_asymmetry (E : Env) :
  (forall method params,
     method <> "initialize" -> method <> "tools/list" ->
     method <> "tools/call" ->
     handle_request E method params
     = ([], Raise (mk_exn ValueError ("Method not found: " ++ method))))
  /\ (forall p tool_name arguments,
        py_get (PDict p) "name" = Ok tool_name ->
        py_get_default (PDict p) "arguments" (PDict []) = Ok arguments ->
        registered_handler tool_name = None ->
        handle_request E "tools/call" (PDict p)
        = ([], Ok (failure_result
                     match decoded_arguments E arguments with
                     | Some _ => "Tool not found: " ++ py_str E tool_name
                     | None =>
                         "Invalid arguments: expected object or JSON string."
                     end))).
Proof.
  split.
  - intros method params H1 H2 H3. unfold handle_request.
    apply String.eqb_neq in H1, H2, H3. now rewrite H1, H2, H3.
  - intros p tool_name arguments Hn Ha Hr.
    rewrite handle_request_tools_call.
    rewrite (handle_tool_call_known E (PDict p) tool_name arguments Hn Ha).
    rewrite Hr. now destruct (decoded_arguments E arguments).
Qed.

Lemma router_asymmetry_witness :
  handle_request Sample.plain "resources/list" PNone
  = ([], Raise (mk_exn ValueError "Method not found: resources/list"))
  /\ handle_request Sample.plain "tools/call"
       (tool_call "drop_table" (PDict []))
     = ([], Ok (failure_result "Tool not found: drop_table")).
Proof.
  split.
  - apply (proj1 (router_asymmetry Sample.plain)); discriminate.
  - apply (proj2 (router_asymmetry Sample.plain)
             [("name", PStr "drop_table"); ("arguments", PDict [])]
             (PStr "drop_table") (PDict [])); reflexivity.
Defined.

(** C5, as stated, fails: the tool is unknown and the arguments do not
    decode; the failure text is about the arguments and does not name the
    tool. *)
Lemma unknown_tool_with_undecodable_arguments :
  handle_tool_call Sample.plain (tool_call "nope" (PStr "not json"))
  = ([], Ok (failure_result
               "Invalid arguments: expected object or JSON string."))
  /\ ~ unknown_tool_failure_names_tool.
Proof.
  split; [reflexivity|]. intros H.
  destruct (H Sample.plain [("name", PStr "nope"); ("arguments", PStr "not json")]
              (PStr "nope") eq_refl eq_refl) as (r & t & Hr & _ & Ht & He).
  vm_compute in Hr. injection Hr as <-.
  vm_compute in Ht. injection Ht as <-.
  revert He. apply not_infix_not_embedded. vm_compute. reflexivity.
Qed.



(** C10. Whatever [handle_tool_call] returns has a [content] field that is
    a list of exactly one element [{type: "text", text: <string>}].  Either
    a registered handler ran and returned: then the result has no
    [isError] field and its text is [str] of what the handler returned.  Or
    no handler ran (unknown tool, undecodable arguments): then the result
    has [isError: true]. *)
Theorem tool_call_result_shape (E : Env) (params r : pyval) :
  outcome (handle_tool_call E params) = Ok r ->
  exists t,
    dict_field "content" r
    = Some (PList [PDict [("type", PStr "text"); ("text", PStr t)]])
    /\ ((r = PDict [("content",
                     PList [PDict [("type", PStr "text"); ("text", PStr t)]])]
         /\ dict_field "isError" r = None
         /\ exists tool_name arguments a h data,
              py_get params "name" = Ok tool_name
              /\ py_get_default params "arguments" (PDict []) = Ok arguments
              /\ decoded_arguments E arguments = Some a
              /\ registered_handler tool_name = Some h
              /\ outcome (h E a) = Ok data
              /\ t = py_str E data)
        \/ (dict_field "isError" r = Some (PBool true)
            /\ exists tool_name arguments,
                 py_get params "name" = Ok tool_name
                 /\ py_get_default params "arguments" (PDict []) = Ok arguments
                 /\ (decoded_arguments E arguments = None
                     \/ registered_handler tool_name = None))).
Proof.
  rewrite handle_tool_call_dispatch.
  destruct (py_get params "name") as [tool_name|e] eqn:Hn;
    [|discriminate].
  destruct (py_get_default params "arguments" (PDict []))
    as [arguments|e] eqn:Ha; [|discriminate].
  rewrite !bind_lift_ok.
  destruct (decoded_arguments E arguments) as [a|] eqn:Hd.
  - destruct (registered_handler tool_name) as [h|] eqn:Hh.
    + rewrite bind_then_ret. cbn [outcome snd].
      destruct (outcome (h E a)) as [data|e] eqn:Hdata; [|discriminate].
      intros [= <-]. exists (py_str E data). split; [reflexivity|].
      left. split; [reflexivity|]. split; [reflexivity|].
      now exists tool_name, arguments, a, h, data.
    + intros [= <-]. eexists. split; [reflexivity|].
      right. split; [reflexivity|].
      exists tool_name, arguments. auto.
  - intros [= <-]. eexists. split; [reflexivity|].
    right. split; [reflexivity|].
    exists tool_name, arguments. auto.
Qed.

Lemma tool_call_result_shape_witness :
  exists t,
    dict_field "content" (success_result (Sample.render Sample.users_schema))
    = Some (PList [PDict [("type", PStr "text"); ("text", PStr t)]])
    /\ ((success_result (Sample.render Sample.users_schema)
         = PDict [("content",
                   PList [PDict [("type", PStr "text"); ("text", PStr t)]])]
         /\ dict_field "isError"
              (success_result (Sample.render Sample.users_schema)) = None
         /\ exists tool_name arguments a h data,
              py_get (tool_call "get_table_schema"
                        (PDict [("table_id", Sample.users_table_id)]))
                "name" = Ok tool_name
              /\ py_get_default
                   (tool_call "get_table_schema"
                      (PDict [("table_id", Sample.users_table_id)]))
                   "arguments" (PDict []) = Ok arguments
              /\ decoded_arguments Sample.plain arguments = Some a
              /\ registered_handler tool_name = Some h
              /\ outcome (h Sample.plain a) = Ok data
              /\ t = py_str Sample.plain data)
        \/ (dict_field "isError"
              (success_result (Sample.render Sample.users_schema))
            = Some (PBool true)
            /\ exists tool_name arguments,
                 py_get (tool_call "get_table_schema"
                           (PDict [("table_id", Sample.users_table_id)]))
                   "name" = Ok tool_name
                 /\ py_get_default
                      (tool_call "get_table_schema"
                         (PDict [("table_id", Sample.users_table_id)]))
                      "arguments" (PDict []) = Ok arguments
                 /\ (decoded_arguments Sample.plain arguments = None
                     \/ registered_handler tool_name = None))).
Proof.
  apply (tool_call_result_shape Sample.plain
           (tool_call "get_table_schema"
              (PDict [("table_id", Sample.users_table_id)]))
           (success_result (Sample.render Sample.users_schema))).
  reflexivity.
Defined.

(** ** ToolRegistry: the descriptors and what the handlers read *)

Lemma agree_except_cons (k : string) (v : pyval) (a : dict) :
  agree_except k ((k, v) :: a) a.
Proof.
  intros k' Hne. cbn [dict_lookup].
  apply String.eqb_neq in Hne. now rewrite Hne.
Qed.

(** A handler that behaves the same on mappings equal at [keys] depends
    on those keys at most. *)
Lemma depends_only_on_keys (h : Env -> pyval -> M pyval)
    (keys : list string) :
  (forall E a1 a2,
     (forall k, In k keys -> dict_lookup k a1 = dict_lookup k a2) ->
     h E (PDict a1) = h E (PDict a2)) ->
  forall k, handler_depends_on h k -> In k keys.
Proof.
  intros Hext k (E & a1 & a2 & Hag & Hne).
  destruct (in_dec string_dec k keys) as [Hin|Hout]; [exact Hin|].
  exfalso. apply Hne, Hext. intros k' Hin. apply Hag.
  intros ->. contradiction.
Qed.

Lemma listing_depends_on_nothing (k : string) :
  ~ handler_depends_on get_list_of_datasets_by_project_id k.
Proof. intros (E & a1 & a2 & _ & Hne). now apply Hne. Qed.

Lemma get_table_schema_depends (k : string) :
  handler_depends_on get_table_schema k <-> In k ["table_id"].
Proof.
  split.
  - apply depends_only_on_keys. intros E a1 a2 H.
    unfold get_table_schema, py_get, py_get_default.
    now rewrite (H "table_id" (or_introl eq_refl)).
  - intros [<-|[]].
    exists Sample.plain, [("table_id", Sample.users_table_id)], [].
    split; [apply agree_except_cons|].
    intros Heq. vm_compute in Heq. discriminate Heq.
Qed.

Lemma create_custom_sql_query_to_review_depends (k : string) :
  handler_depends_on create_custom_sql_query_to_review k
  <-> In k ["question"; "table_id"].
Proof.
  split.
  - apply depends_only_on_keys. intros E a1 a2 H.
    unfold create_custom_sql_query_to_review, py_get, py_get_default.
    rewrite (H "question" (or_introl eq_refl)).
    now rewrite (H "table_id" (or_intror (or_introl eq_refl))).
  - intros [<-|[<-|[]]].
    + exists Sample.plain,
        [("question", Sample.question); ("table_id", Sample.users_table_id)],
        [("table_id", Sample.users_table_id)].
      split; [apply agree_except_cons|].
      intros Heq. vm_compute in Heq. discriminate Heq.
    + exists Sample.plain, [("table_id", Sample.users_table_id)], [].
      split; [apply agree_except_cons|].
      intros Heq. vm_compute in Heq. discriminate Heq.
Qed.

Lemma run_sql_query_via_bq_api_depends (k : string) :
  handler_depends_on run_sql_query_via_bq_api k <-> In k ["sql_query"].
Proof.
  split.
  - apply depends_only_on_keys. intros E a1 a2 H.
    unfold run_sql_query_via_bq_api, py_get, py_get_default.
    now rewrite (H "sql_query" (or_introl eq_refl)).
  - intros [<-|[]].
    exists Sample.plain, [("sql_query", PStr "SELECT 1")], [].
    split; [apply agree_except_cons|].
    intros Heq. vm_compute in Heq. discriminate Heq.
Qed.

(** C8, as amended. [tools/list] returns exactly the four declared
    descriptors, each with [additionalProperties: false] and a non-empty
    required list.  Each names a registered handler; the arguments that
    handler depends on are exactly the keys it looks up, and each of them
    is in the required list. *)
Theorem tools_list_descriptors :
  map descriptor_name (tools_of handle_tools_list)
  = [PStr "get_list_of_datasets_by_project_id"; PStr "get_table_schema";
     PStr "create_custom_sql_query_to_review"; PStr "run_sql_query"]
  /\ forall d,
       In d (tools_of handle_tools_list) ->
       descriptor_additional_properties d = Some (PBool false)
       /\ descriptor_required d <> []
       /\ exists h,
            registered_handler (descriptor_name d) = Some h
            /\ (forall k, handler_depends_on h k
                          <-> In k (keys_read (descriptor_name d)))
            /\ (forall k, In k (keys_read (descriptor_name d)) ->
                          In (PStr k) (descriptor_required d)).
Proof.
  split; [reflexivity|].
  intros d [<-|[<-|[<-|[<-|[]]]]];
    (split; [reflexivity|]); (split; [discriminate|]).
  - exists get_list_of_datasets_by_project_id.
    split; [reflexivity|]. split; [|intros k []].
    intros k. split; [|intros []].
    intros H. now apply listing_depends_on_nothing in H.
  - exists get_table_schema.
    split; [reflexivity|]. split; [apply get_table_schema_depends|].
    intros k [<-|[]]. now left.
  - exists create_custom_sql_query_to_review.
    split; [reflexivity|].
    split; [apply create_custom_sql_query_to_review_depends|].
    intros k [<-|[<-|[]]]; [now left | right; now left].
  - exists run_sql_query_via_bq_api.
    split; [reflexivity|]. split; [apply run_sql_query_via_bq_api_depends|].
    intros k [<-|[]]. now left.
Qed.

Lemma tools_list_descriptors_witness :
  descriptor_additional_properties
    (nth 3 (tools_of handle_tools_list) PNone) = Some (PBool false)
  /\ descriptor_required (nth 3 (tools_of handle_tools_list) PNone) <> []
  /\ exists h,
       registered_handler
         (descriptor_name (nth 3 (tools_of handle_tools_list) PNone))
       = Some h
       /\ (forall k,
             handler_depends_on h k
             <-> In k (keys_read
                         (descriptor_name
                            (nth 3 (tools_of handle_tools_list) PNone))))
       /\ (forall k,
             In k (keys_read
                     (descriptor_name
                        (nth 3 (tools_of handle_tools_list) PNone))) ->
             In (PStr k)
               (descriptor_required
                  (nth 3 (tools_of handle_tools_list) PNone))).
Proof.
  apply (proj2 tools_list_descriptors
           (nth 3 (tools_of handle_tools_list) PNone)).
  right. right. right. left. reflexivity.
Defined.

(** C8, as stated, fails: the listing tool declares [query] as required,
    and its handler does the same whatever its arguments are; likewise
    [confirmation_key] for [run_sql_query]. *)
Lemma required_arguments_never_read :
  In (PStr "query")
    (descriptor_required (nth 0 (tools_of handle_tools_list) PNone))
  /\ (forall E a1 a2,
        get_list_of_datasets_by_project_id E a1
        = get_list_of_datasets_by_project_id E a2)
  /\ In (PStr "confirmation_key")
       (descriptor_required (nth 3 (tools_of handle_tools_list) PNone))
  /\ ~ handler_depends_on run_sql_query_via_bq_api "confirmation_key"
  /\ ~ required_lists_match_handlers.
Proof.
  split; [now left|]. split; [reflexivity|].
  split; [right; now left|].
  split.
  - intros H. apply run_sql_query_via_bq_api_depends in H.
    destruct H as [H|[]]. discriminate H.
  - intros H.
    apply (listing_depends_on_nothing "query").
    apply (H (nth 0 (tools_of handle_tools_list) PNone)
             get_list_of_datasets_by_project_id "query").
    + now left.
    + reflexivity.
    + now left.
Qed.

(** ** SqlReviewPipeline: the branch on the dry-run status *)

Create HintDb embeds.
#[local] Hint Resolve embeds_middle embeds_after : embeds.

(** The guidance text embeds the question and the schema it is given. *)
Lemma invalid_sql_guidance_embeds_question_and_schema
    (function_repr question table_schema : string) :
  Embeds (invalid_sql_guidance function_repr question table_schema) question
  /\ Embeds (invalid_sql_guidance function_repr question table_schema)
       table_schema.
Proof.
  unfold invalid_sql_guidance. split; auto 8 with embeds.
Qed.

(** What [generate_sql_query] returns once the provider has answered with
    a candidate text: the four cases of the dry run. *)
Lemma generate_sql_query_review_branch
    (E : Env) (question table_schema table_id text : pyval)
    (prompt : string) :
  py_truthy question = true ->
  py_truthy table_id = true ->
  env_value_missing (os_getenv E "GOOGLE_AI_KEY") = false ->
  outcome (bq_sql_gnerator_system_prompt E question table_schema table_id)
  = Ok prompt ->
  (forall url payload,
     requests_post E url payload = Ok (candidate_response text)) ->
  outcome (generate_sql_query E question table_schema table_id) =
  match client_query E text (Some dry_run_config) with
  | Ok job =>
      match truediv_bytes (total_bytes_processed job) (1024 ^ 4) with
      | Ok terabytes =>
          Ok (PDict [
            ("sql_query",
             PStr (valid_sql_presentation (py_str E table_id)
                     (py_str E question) (py_str E table_schema)
                     (py_str E text)
                     (py_str E
                        (PFloat
                           (py_round
                              (py_float_mul terabytes (py_float_lit 625 100))
                              6)))
                     (py_str E (bytes_value (total_bytes_processed job)))));
            ("user_query", question);
            ("status", PStr "success")])
      | Raise _ =>
          Raise (mk_exn Exception
                   "Error processing Gemini API response: 'estimated_cost_usd'")
      end
  | Raise e =>
      if isinstance e GoogleAPICallError then
        Ok (PDict [
          ("sql_query",
           PStr (invalid_sql_guidance (generate_sql_query_repr E)
                   (py_str E question) (py_str E table_schema)));
          ("user_query", question);
          ("status", PStr "success")])
      else
        Raise (mk_exn Exception
                 "Error processing Gemini API response: 'estimated_cost_usd'")
  end.
Proof.
  intros Hq Ht Hk Hp Hpost.
  unfold generate_sql_query. rewrite Hq, Ht, Hk. cbn [negb orb].
  rewrite outcome_bind, Hp, outcome_try_except.
  rewrite outcome_bind. cbn [outcome snd call]. rewrite Hpost.
  unfold candidate_response, candidates_json. run_pure.
  rewrite outcome_bind, check_query_validity_and_cost_cases.
  destruct (client_query E text (Some dry_run_config)) as [job|e].
  - destruct (truediv_bytes (total_bytes_processed job) (1024 ^ 4)) as [t|e];
      run_pure; reflexivity.
  - destruct (isinstance e GoogleAPICallError); run_pure; reflexivity.
Qed.

(** C1, on the code. The provider wrote [SELEC 1] and the dry run
    classified it INVALID: the guidance returned holds the rendering of the
    function object [generate_sql_query] where the failed statement was
    meant to be, and [SELEC 1] is nowhere in it; the status field is
    [success], as for a validated statement.  When the dry run is
    classified ERROR the other branch is taken, it reads the cost fields an
    ERROR estimate does not have, and the pipeline raises instead of
    returning any guidance. *)
Theorem invalid_guidance_omits_failed_sql :
  outcome (check_query_validity_and_cost Sample.rejecting (PStr "SELEC 1"))
  = Ok (PDict [("status", PStr "INVALID");
               ("message", PStr "The query cannot be executed.");
               ("error_details",
                PStr "Syntax error: Unexpected identifier SELEC at [1:1]")])
  /\ outcome (generate_sql_query Sample.rejecting Sample.question
                Sample.users_schema Sample.users_table_id)
     = Ok (PDict [
         ("sql_query",
          PStr (invalid_sql_guidance Sample.function_repr
                  "how many users are there"
                  (Sample.render Sample.users_schema)));
         ("user_query", Sample.question);
         ("status", PStr "success")])
  /\ Embeds (invalid_sql_guidance Sample.function_repr
               "how many users are there"
               (Sample.render Sample.users_schema))
       Sample.function_repr
  /\ ~ Embeds (invalid_sql_guidance Sample.function_repr
                 "how many users are there"
                 (Sample.render Sample.users_schema))
         "SELEC 1"
  /\ outcome (check_query_validity_and_cost Sample.unreachable
                (PStr "SELECT 1"))
     = Ok (PDict [("status", PStr "ERROR");
                  ("message", PStr "An unexpected system error occurred.");
                  ("error_details", PStr "Connection aborted.")])
  /\ outcome (generate_sql_query Sample.unreachable Sample.question
                Sample.users_schema Sample.users_table_id)
     = Raise (mk_exn Exception
                "Error processing Gemini API response: 'estimated_cost_usd'").
Proof.
  split; [vm_compute; reflexivity|].
  split; [vm_compute; reflexivity|].
  split; [apply embeds_middle|].
  split; [apply not_infix_not_embedded; vm_compute; reflexivity|].
  split; vm_compute; reflexivity.
Qed.

(** ** Scenarios of the specification, run on the model *)

(** Rounding goes to the even neighbour on a tie: 32 GiB cost exactly
    0.1953125 dollars, reported as 0.195312. *)
Example cost_of_32_gib :
  outcome (check_query_validity_and_cost
             (Sample.env None (Sample.query_ok (2 ^ 35))
                (Sample.post_candidate "SELECT 1"))
             (PStr "SELECT 1"))
  = Ok (PDict [("status", PStr "VALID");
               ("message", PStr "This query is valid.");
               ("estimated_cost_usd", PFloat (micros_float 195312));
               ("bytes_processed", PInt 34359738368)]).
Proof. vm_compute. reflexivity. Qed.

Example cost_of_nothing :
  outcome (check_query_validity_and_cost Sample.plain (PStr "SELECT 1"))
  = Ok (PDict [("status", PStr "VALID");
               ("message", PStr "This query is valid.");
               ("estimated_cost_usd", PFloat (micros_float 0));
               ("bytes_processed", PInt 0)]).
Proof. vm_compute. reflexivity. Qed.

Example schema_of_users_table :
  get_table_schema Sample.plain (PDict [("table_id", PStr "proj.ds.users")])
  = ([EvGetTable (PStr "proj.ds.users")],
     Ok (PList [
       PDict [("name", PStr "id"); ("type", PStr "INTEGER");
              ("mode", PStr "REQUIRED")];
       PDict [("name", PStr "name"); ("type", PStr "STRING");
              ("mode", PStr "NULLABLE")]])).
Proof. reflexivity. Qed.

Example no_datasets_short_circuit :
  get_list_of_datasets_by_project_id Sample.plain (PDict [])
  = ([EvListDatasets project_id],
     Ok (PStr "No datasets found in this project.")).
Proof. reflexivity. Qed.

Example encoded_run_sql_query_scenario :
  trace (handle_tool_call Sample.plain
           (tool_call "run_sql_query" (PStr Sample.encoded_arguments)))
  = [EvQuery (PStr "SELECT 1") None].
Proof. reflexivity. Qed.

(** * Further properties of the code *)

(** ** Traces *)

Lemma trace_bind {A B} (m : M A) (k : A -> M B) :
  trace (bind m k)
  = (trace m ++ match outcome m with
                | Ok a => trace (k a)
                | Raise _ => []
                end)%list.
Proof.
  destruct m as [tr [a|e]]; simpl.
  - now destruct (k a).
  - now rewrite app_nil_r.
Qed.

Lemma trace_try_except {A} (m : M A) (h : exn -> M A) :
  trace (try_except m h)
  = (trace m ++ match outcome m with
                | Ok _ => []
                | Raise e => trace (h e)
                end)%list.
Proof.
  destruct m as [tr [a|e]]; simpl.
  - now rewrite app_nil_r.
  - now destruct (h e).
Qed.

Lemma outcome_bind_ok {A B} (m : M A) (k : A -> M B) (b : B) :
  outcome (bind m k) = Ok b ->
  exists a, outcome m = Ok a /\ outcome (k a) = Ok b.
Proof.
  rewrite outcome_bind. destruct (outcome m) as [a|e]; [|discriminate].
  intros H. now exists a.
Qed.

Lemma embeds_trans (a b c : string) : Embeds a b -> Embeds b c -> Embeds a c.
Proof.
  intros (x & y & ->) (u & v & ->).
  exists (x ++ u), (v ++ y). now rewrite !append_assoc.
Qed.

Lemma embeds_refl (a : string) : Embeds a a.
Proof.
  exists EmptyString, EmptyString. simpl.
  induction a as [|c a IH]; simpl; [reflexivity | now rewrite <- IH].
Qed.

Lemma embeds_before (t b s : string) : Embeds t s -> Embeds (t ++ b) s.
Proof.
  intros (x & y & ->). exists x, (y ++ b). now rewrite !append_assoc.
Qed.

(** Every part of a joined text is in the text. *)
Lemma join_embeds (sep x : string) (parts : list string) :
  In x parts -> Embeds (join sep parts) x.
Proof.
  induction parts as [|p ps IH]; intros Hin; [destruct Hin|].
  destruct ps as [|q ps].
  - destruct Hin as [->|[]]. apply embeds_refl.
  - change (join sep (p :: q :: ps)) with (p ++ sep ++ join sep (q :: ps)).
    destruct Hin as [->|Hin].
    + apply embeds_before, embeds_refl.
    + do 2 apply embeds_after. now apply IH.
Qed.

(** ** SchemaInspector: the dataset report *)

Lemma inspect_datasets_trace (E : Env) (datasets : list Dataset) :
  forall output_lines,
    trace (inspect_datasets E datasets output_lines)
    = map (fun dataset => EvListTables (dataset_id dataset)) datasets.
Proof.
  induction datasets as [|dataset rest IH]; intros output_lines.
  - reflexivity.
  - cbn [inspect_datasets map]. rewrite trace_bind, trace_try_except.
    rewrite outcome_try_except.
    destruct (client_list_tables E dataset) as [[|t tables]|e];
      cbn [call bind ret trace outcome fst snd app];
      now rewrite IH.
Qed.

Lemma inspect_datasets_lines (E : Env) (datasets : list Dataset) :
  forall output_lines,
    outcome (inspect_datasets E datasets output_lines)
    = Ok (output_lines ++ flat_map (dataset_block E) datasets)%list.
Proof.
  induction datasets as [|dataset rest IH]; intros output_lines.
  - cbn [inspect_datasets flat_map]. now rewrite app_nil_r.
  - cbn [inspect_datasets flat_map]. rewrite outcome_bind, outcome_try_except.
    unfold dataset_block.
    destruct (client_list_tables E dataset) as [[|t tables]|e];
      cbn [call bind ret trace outcome fst snd];
      rewrite IH, <- !app_assoc; reflexivity.
Qed.

(** The text the listing returns, by what the warehouse answers. *)
Lemma listing_text (E : Env) (arguments : pyval) :
  outcome (get_list_of_datasets_by_project_id E arguments)
  = Ok (PStr
          match client_list_datasets E project_id with
          | Raise e => project_error_text (exn_str e)
          | Ok [] => "No datasets found in this project."
          | Ok datasets =>
              datasets_instructions
                (join nl
                   (("--- Inspecting Project: " ++ project_id ++ " ---")
                    :: flat_map (dataset_block E) datasets))
          end).
Proof.
  unfold get_list_of_datasets_by_project_id.
  rewrite outcome_bind, outcome_try_except.
  destruct (client_list_datasets E project_id) as [[|dataset rest]|e];
    try reflexivity.
  rewrite outcome_bind. cbn [call outcome snd].
  rewrite outcome_bind, inspect_datasets_lines. reflexivity.
Qed.

(** X1. The listing never raises, and it visits every dataset: after the
    one call that lists the datasets it asks for the tables of each dataset
    once, in order, whether or not an earlier listing of tables failed; when
    the datasets cannot be listed, or there are none, no tables are asked
    for. *)
Theorem listing_visits_every_dataset (E : Env) (arguments : pyval) :
  trace (get_list_of_datasets_by_project_id E arguments)
  = EvListDatasets project_id
    :: map (fun dataset => EvListTables (dataset_id dataset))
         (listed_datasets E)
  /\ exists text,
       outcome (get_list_of_datasets_by_project_id E arguments)
       = Ok (PStr text)
       /\ (forall e, client_list_datasets E project_id = Raise e ->
                     text = project_error_text (exn_str e))
       /\ (client_list_datasets E project_id = Ok [] ->
           text = "No datasets found in this project.").
Proof.
  split.
  - unfold get_list_of_datasets_by_project_id, listed_datasets.
    rewrite trace_bind, trace_try_except, outcome_try_except.
    destruct (client_list_datasets E project_id) as [[|dataset rest]|e];
      try reflexivity.
    rewrite trace_bind, outcome_bind.
    cbn [call trace outcome fst snd].
    rewrite trace_bind, outcome_bind, inspect_datasets_trace,
      inspect_datasets_lines.
    cbn [ret trace outcome fst snd app]. now rewrite !app_nil_r.
  - rewrite listing_text. eexists. split; [reflexivity|].
    split.
    + now intros e ->.
    + now intros ->.
Qed.

Lemma listing_visits_every_dataset_witness :
  trace (get_list_of_datasets_by_project_id World.populated (PDict []))
  = [EvListDatasets project_id; EvListTables "sales";
     EvListTables "staging"; EvListTables "finance"].
Proof.
  exact (proj1 (listing_visits_every_dataset World.populated (PDict []))).
Defined.

Lemma datasets_instructions_embeds (joined_data : string) :
  Embeds (datasets_instructions joined_data) joined_data.
Proof. unfold datasets_instructions. auto 8 with embeds. Qed.

(** X2. The report names every dataset the warehouse listed, and under
    each one either its tables, or the note that it has none, or, when its
    tables could not be listed, the text of that error: a failure on one
    dataset is written into the report and the others are still shown. *)
Theorem listing_report_covers_datasets
    (E : Env) (arguments : pyval) (text : string) :
  outcome (get_list_of_datasets_by_project_id E arguments) = Ok (PStr text) ->
  forall dataset,
    In dataset (listed_datasets E) ->
    Embeds text (dataset_line (dataset_id dataset))
    /\ (forall e, client_list_tables E dataset = Raise e ->
                  Embeds text (table_error_line (exn_str e)))
    /\ (client_list_tables E dataset = Ok [] -> Embeds text no_tables_line)
    /\ (forall tables table,
          client_list_tables E dataset = Ok tables -> In table tables ->
          Embeds text (table_line (table_id table))).
Proof.
  rewrite listing_text. unfold listed_datasets.
  destruct (client_list_datasets E project_id) as [[|d ds]|e];
    intros [= <-] dataset Hin; [contradiction| |contradiction].
  assert (Hblock : forall line,
             In line (dataset_block E dataset) ->
             Embeds
               (datasets_instructions
                  (join nl
                     (("--- Inspecting Project: " ++ project_id ++ " ---")
                      :: flat_map (dataset_block E) (d :: ds))))
               line).
  { intros line Hl.
    eapply embeds_trans; [apply datasets_instructions_embeds|].
    apply join_embeds. right. apply in_flat_map.
    exists dataset. split; assumption. }
  unfold dataset_block in Hblock.
  split; [apply Hblock; now left|].
  split; [|split].
  - intros e He. apply Hblock. rewrite He. right. now left.
  - intros He. apply Hblock. rewrite He. right. now left.
  - intros tables table He Ht. apply Hblock. rewrite He. right.
    destruct tables as [|t ts]; [destruct Ht|].
    apply in_map_iff. now exists table.
Qed.

Lemma listing_report_covers_datasets_witness :
  Embeds World.report (dataset_line "finance")
  /\ Embeds World.report
       (table_error_line "403 Access Denied: Dataset finance").
Proof.
  destruct (listing_report_covers_datasets World.populated (PDict [])
              World.report eq_refl World.locked
              (or_intror (or_intror (or_introl eq_refl))))
    as (Hname & Herr & _).
  split; [exact Hname|].
  exact (Herr World.access_denied eq_refl).
Defined.

(** ** SqlSynthesizer: the prompt *)

Lemma comprehension_pure {A B} (f : A -> M B) (xs : list A) :
  (forall x, trace (f x) = []) -> trace (comprehension f xs) = [].
Proof.
  intros Hf. induction xs as [|x xs IH]; [reflexivity|].
  cbn [comprehension]. rewrite trace_bind, Hf.
  destruct (outcome (f x)); [|reflexivity].
  rewrite trace_bind, IH. now destruct (outcome (comprehension f xs)).
Qed.

Lemma trace_bind_lift {A B} (r : result A) (k : A -> M B) :
  trace (bind (lift r) k)
  = match r with Ok a => trace (k a) | Raise _ => [] end.
Proof. rewrite trace_bind. now destruct r. Qed.

Lemma outcome_bind_lift {A B} (r : result A) (k : A -> M B) :
  outcome (bind (lift r) k)
  = match r with Ok a => outcome (k a) | Raise e => Raise e end.
Proof. rewrite outcome_bind. now destruct r. Qed.

(** Building the prompt touches nothing outside. *)
Lemma system_prompt_trace (E : Env) (user_question schema table_id : pyval) :
  trace (bq_sql_gnerator_system_prompt E user_question schema table_id) = [].
Proof.
  unfold bq_sql_gnerator_system_prompt.
  rewrite trace_bind_lift. destruct (py_iter schema) as [cols|e];
    [|reflexivity].
  rewrite trace_bind, comprehension_pure.
  - now destruct (outcome _).
  - intros col. rewrite trace_bind_lift.
    destruct (py_getitem col "name"); [|reflexivity].
    rewrite trace_bind_lift.
    destruct (py_getitem col "type"); [|reflexivity].
    rewrite trace_bind_lift.
    now destruct (py_getitem col "mode").
Qed.

(** ** SqlReviewPipeline: what a review does to the outside *)

Lemma bind_assoc {A B C} (m : M A) (f : A -> M B) (g : B -> M C) :
  bind (bind m f) g = bind m (fun a => bind (f a) g).
Proof.
  destruct m as [tr [a|e]]; [|reflexivity]. cbn [bind].
  destruct (f a) as [tr1 [b|e]]; cbn [bind]; [|reflexivity].
  destruct (g b) as [tr2 r]. now rewrite app_assoc.
Qed.

(** The cost check asks the warehouse once, for a dry run. *)
Lemma check_query_validity_and_cost_trace (E : Env) (sql : pyval) :
  trace (check_query_validity_and_cost E sql)
  = [EvQuery sql (Some dry_run_config)].
Proof.
  unfold check_query_validity_and_cost.
  rewrite trace_try_except, outcome_bind, trace_bind.
  cbn [call trace outcome fst snd].
  destruct (client_query E sql _) as [job|e].
  - rewrite trace_bind_lift, outcome_bind_lift.
    destruct (truediv_bytes _ _); [reflexivity|].
    now destruct (isinstance e GoogleAPICallError).
  - now destruct (isinstance e GoogleAPICallError).
Qed.

Ltac finish_shape :=
  unfold review_trace_shape;
  cbn [app ret raise trace outcome fst snd]; rewrite ?app_nil_r;
  first [ left; reflexivity
        | right; left; eexists; reflexivity
        | right; right; eexists; reflexivity ].

(** One pure step of a computation whose trace is being followed. *)
Ltac lift_step :=
  rewrite ?bind_assoc;
  first
    [ rewrite bind_lift_ok
    | rewrite trace_bind_lift;
      match goal with
      | |- context [match ?r with Ok _ => _ | Raise _ => _ end] =>
          destruct r; [|finish_shape]
      end ];
  cbv beta.

(** The effects of the synthesizer once its checks have passed and the
    prompt is built: the request, followed by at most one dry run. *)
Lemma generate_sql_query_trace_after_prompt
    (E : Env) (question table_schema table_id : pyval) (prompt : string) :
  py_truthy question = true ->
  py_truthy table_id = true ->
  env_value_missing (os_getenv E "GOOGLE_AI_KEY") = false ->
  outcome (bq_sql_gnerator_system_prompt E question table_schema table_id)
  = Ok prompt ->
  review_trace_shape (gemini_request E prompt question)
    (trace (generate_sql_query E question table_schema table_id)).
Proof.
  intros Hq Ht Hk Hp.
  unfold generate_sql_query. rewrite Hq, Ht, Hk. cbn [negb orb].
  rewrite trace_bind, system_prompt_trace, Hp.
  cbn [app]. rewrite trace_try_except.
  match goal with
  | |- context [match ?o with Ok _ => [] | Raise e => trace (@?h e) end] =>
      replace (match o with Ok _ => [] | Raise e => trace (h e) end)
        with (@nil event)
        by (destruct o as [?|e0]; [reflexivity|];
            now destruct (isinstance e0 RequestException))
  end.
  rewrite app_nil_r, trace_bind. cbn [call trace outcome fst snd].
  change (EvHttpPost _ _) with (gemini_request E prompt question).
  destruct (requests_post E _ _) as [response|e]; [|finish_shape].
  repeat lift_step.
  match goal with
  | |- context [if ?b then _ else ret false] => destruct b
  end.
  - repeat lift_step. rewrite ?bind_assoc, bind_ret.
    match goal with
    | |- context [if ?b then _ else _] => destruct b; [|finish_shape]
    end.
    repeat lift_step.
    rewrite trace_bind, check_query_validity_and_cost_trace.
    destruct (outcome (check_query_validity_and_cost E _)) as [qs|e];
      [|finish_shape].
    repeat lift_step.
    match goal with
    | |- context [if ?b then _ else _] => destruct b
    end.
    + rewrite bind_assoc, trace_bind. cbn [call trace outcome fst snd].
      rewrite bind_ret. finish_shape.
    + repeat lift_step. rewrite ?bind_assoc, bind_ret.
      finish_shape.
  - rewrite bind_ret. finish_shape.
Qed.

(** The effects of the synthesizer: none, or the request followed by at
    most one dry run. *)
Lemma generate_sql_query_trace
    (E : Env) (question table_schema table_id : pyval) :
  trace (generate_sql_query E question table_schema table_id) = []
  \/ exists prompt,
       outcome (bq_sql_gnerator_system_prompt E question table_schema table_id)
       = Ok prompt
       /\ review_trace_shape (gemini_request E prompt question)
            (trace (generate_sql_query E question table_schema table_id)).
Proof.
  destruct (py_truthy question) eqn:Hq;
    [|left; unfold generate_sql_query; now rewrite Hq].
  destruct (py_truthy table_id) eqn:Ht;
    [|left; unfold generate_sql_query; now rewrite Hq, Ht].
  destruct (env_value_missing (os_getenv E "GOOGLE_AI_KEY")) eqn:Hk;
    [left; unfold generate_sql_query; now rewrite Hq, Ht, Hk|].
  destruct (outcome (bq_sql_gnerator_system_prompt E question table_schema
                       table_id)) as [prompt|e] eqn:Hp.
  - right. exists prompt. split; [reflexivity|].
    now apply generate_sql_query_trace_after_prompt.
  - left. unfold generate_sql_query. rewrite Hq, Ht, Hk. cbn [negb orb].
    now rewrite trace_bind, system_prompt_trace, Hp.
Qed.

Lemma review_trace_shape_events (request : event) (tr : list event) :
  review_event request = true ->
  review_trace_shape request tr ->
  forallb review_event tr = true.
Proof.
  intros Hr [-> | [(sql & ->) | (sql & ->)]]; cbn; now rewrite Hr.
Qed.

(** X3. A review never runs the statement: whatever the arguments and the
    outside world, the calls of [create_custom_sql_query_to_review] are, in
    this order, at most one schema fetch, at most one request to the
    text-generation provider, and at most one query to the warehouse, which
    is a dry run with the cache disabled.  There is no real run, no listing
    call and no second attempt. *)
Theorem review_never_executes (E : Env) (arguments : pyval) :
  forallb review_event (trace (create_custom_sql_query_to_review E arguments))
  = true
  /\ (trace (create_custom_sql_query_to_review E arguments) = []
      \/ exists table_id,
           py_get arguments "table_id" = Ok table_id
           /\ (trace (create_custom_sql_query_to_review E arguments)
               = [EvGetTable table_id]
               \/ exists question prompt rest,
                    py_get arguments "question" = Ok question
                    /\ trace (create_custom_sql_query_to_review E arguments)
                       = EvGetTable table_id :: rest
                    /\ review_trace_shape (gemini_request E prompt question)
                         rest)).
Proof.
  unfold create_custom_sql_query_to_review.
  destruct (py_get arguments "question") as [question|e] eqn:Hq;
    [|split; [reflexivity | now left]].
  destruct (py_get arguments "table_id") as [table_id|e] eqn:Ht;
    [|split; [reflexivity | now left]].
  rewrite !bind_lift_ok. unfold get_table_schema.
  change (py_get (PDict [("table_id", table_id)]) "table_id")
    with (@Ok pyval table_id).
  rewrite bind_lift_ok, bind_assoc, trace_bind.
  cbn [call trace outcome fst snd app].
  destruct (client_get_table E table_id) as [table|e].
  - rewrite bind_ret.
    match goal with
    | |- context [generate_sql_query E question ?s table_id] =>
        destruct (generate_sql_query_trace E question s table_id)
          as [Hnone | (prompt & _ & Hshape)];
        rewrite (bind_then_ret (generate_sql_query E question s table_id)
                   (fun sql => sql))
    end; cbn [trace fst].
    + rewrite Hnone. split; [reflexivity|]. right. exists table_id.
      split; [reflexivity | now left].
    + pose proof (review_trace_shape_events
                    (gemini_request E prompt question) _ eq_refl Hshape)
        as Hev.
      split; [cbn [forallb review_event]; exact Hev|].
      right. exists table_id. split; [reflexivity|]. right.
      exists question, prompt. eexists. split; [reflexivity|].
      split; [reflexivity | exact Hshape].
  - split; [reflexivity|]. right. exists table_id.
    split; [reflexivity | now left].
Qed.

(** ** SqlSynthesizer: how it fails and what it returns *)

Lemma try_except_bind_call {A B} (ev : event) (r : result A) (k : A -> M B)
    (h : exn -> M B) :
  try_except (bind (call ev r) k) h
  = (call ev (Ok tt) ;;; try_except (bind (lift r) k) h).
Proof.
  destruct r as [a|e]; cbn [call lift bind try_except app].
  - destruct (k a) as [tr [b|e]]; cbn [try_except app]; [reflexivity|].
    now destruct (h e).
  - now destruct (h e).
Qed.

Lemma try_except_lift_raise {A B} (e : exn) (k : A -> M B) (h : exn -> M B) :
  try_except (bind (lift (Raise e)) k) h = h e.
Proof. cbn [lift bind try_except app]. now destruct (h e). Qed.

Lemma gemini_failure_handler (cause : exn) :
  (if isinstance cause RequestException then
     raise (mk_exn Exception ("Gemini API request failed: " ++ exn_str cause))
   else
     raise (mk_exn Exception
              ("Error processing Gemini API response: " ++ exn_str cause)))
  = (@raise pyval (gemini_failure cause)).
Proof. unfold gemini_failure. now destruct (isinstance cause RequestException). Qed.

(** One pure step of the body of the [try] statement: either it goes on,
    or the handler takes over. *)
Ltac pure_step :=
  rewrite ?bind_assoc;
  first
    [ rewrite bind_lift_ok; cbv beta iota
    | match goal with
      | |- try_except (bind (lift ?r) _) _ = _ =>
          destruct r eqn:?;
          [ rewrite bind_lift_ok; cbv beta iota
          | rewrite try_except_lift_raise, gemini_failure_handler;
            reflexivity ]
      end ].

(** The step of the dry run: its one call, then readings of the
    estimate. *)
Ltac dry_run_step :=
  match goal with
  | |- try_except (bind ([?ev], ?r) ?k) ?h = _ =>
      change ([ev], r) with (call ev r);
      rewrite try_except_bind_call;
      match goal with
      | |- bind _ (fun _ => ?m) = bind _ (fun _ => ?m') =>
          cut (m = m'); [intros ->; reflexivity|]
      end
  end.

(** [generate_sql_query] once its checks have passed and the prompt is
    built: the request, then what the answer leads to. *)
Lemma generate_sql_query_after_prompt
    (E : Env) (question table_schema table_id : pyval) (prompt : string) :
  py_truthy question = true ->
  py_truthy table_id = true ->
  env_value_missing (os_getenv E "GOOGLE_AI_KEY") = false ->
  outcome (bq_sql_gnerator_system_prompt E question table_schema table_id)
  = Ok prompt ->
  generate_sql_query E question table_schema table_id =
  (call (gemini_request E prompt question) (Ok tt) ;;;
   match provider_answer E prompt question with
   | Raise cause => raise (gemini_failure cause)
   | Ok answer =>
       match has_candidates answer with
       | Raise cause => raise (gemini_failure cause)
       | Ok false =>
           ret (PDict [
             ("sql_query", PStr "No results generated from Gemini API");
             ("user_query", question);
             ("status", PStr "no_results")])
       | Ok true =>
           match candidate_text answer with
           | Raise cause => raise (gemini_failure cause)
           | Ok sql =>
               call (EvQuery sql (Some dry_run_config)) (Ok tt) ;;;
               match client_query E sql (Some dry_run_config) with
               | Ok job =>
                   match truediv_bytes (total_bytes_processed job)
                           (1024 ^ 4) with
                   | Ok terabytes =>
                       ret (PDict [
                         ("sql_query",
                          PStr (valid_sql_presentation (py_str E table_id)
                                  (py_str E question) (py_str E table_schema)
                                  (py_str E sql)
                                  (py_str E
                                     (PFloat
                                        (py_round
                                           (py_float_mul terabytes
                                              (py_float_lit 625 100)) 6)))
                                  (py_str E
                                     (bytes_value
                                        (total_bytes_processed job)))));
                         ("user_query", question);
                         ("status", PStr "success")])
                   | Raise _ => raise (gemini_failure no_cost_field)
                   end
               | Raise e =>
                   if isinstance e GoogleAPICallError then
                     call (EvPrint "invalid") (Ok tt) ;;;
                     ret (PDict [
                       ("sql_query",
                        PStr (invalid_sql_guidance (generate_sql_query_repr E)
                                (py_str E question) (py_str E table_schema)));
                       ("user_query", question);
                       ("status", PStr "success")])
                   else raise (gemini_failure no_cost_field)
               end
           end
       end
   end).
Proof.
  intros Hq Ht Hk Hp.
  unfold generate_sql_query. rewrite Hq, Ht, Hk. cbn [negb orb].
  pose proof (system_prompt_trace E question table_schema table_id) as Htr.
  destruct (bq_sql_gnerator_system_prompt E question table_schema table_id)
    as [trp [p|e]]; cbn [trace outcome fst snd] in Htr, Hp;
    [|discriminate Hp].
  injection Hp as ->. subst trp.
  change (@nil event, @Ok string prompt) with (ret prompt).
  rewrite bind_ret, try_except_bind_call.
  unfold gemini_request, gemini_payload.
  match goal with
  | |- bind _ (fun _ => ?m) = bind _ (fun _ => ?m') =>
      cut (m = m'); [intros ->; reflexivity|]
  end.
  unfold provider_answer, gemini_payload, has_candidates, candidate_text,
    and_then.
  pure_step.
  match goal with
  | |- context [raise_for_status ?r] => destruct (raise_for_status r) eqn:?
  end.
  { rewrite try_except_lift_raise, gemini_failure_handler. reflexivity. }
  rewrite bind_lift_ok.
  do 2 pure_step.
  match goal with
  | |- context [if ?b then _ else ret false] => destruct b; cbv iota
  end.
  2:{ rewrite (bind_ret false). reflexivity. }
  repeat pure_step.
  match goal with
  | |- context [0 <? ?n] =>
      rewrite (bind_ret (0 <? n)); destruct (0 <? n); cbv iota
  end.
  2:{ reflexivity. }
  repeat pure_step.
  match goal with
  | |- context [check_query_validity_and_cost E ?sql] =>
      pose proof (check_query_validity_and_cost_trace E sql) as Htrc;
      pose proof (check_query_validity_and_cost_cases E sql) as Hout;
      destruct (check_query_validity_and_cost E sql) as [trc o];
      cbn [trace outcome fst snd] in Htrc, Hout; subst trc o;
      destruct (client_query E sql (Some dry_run_config)) as [job|e]
  end.
  - destruct (truediv_bytes (total_bytes_processed job) (1024 ^ 4)) as [t|e];
      dry_run_step; run_pure; reflexivity.
  - destruct (isinstance e GoogleAPICallError);
      dry_run_step; run_pure; reflexivity.
Qed.

(** An error while the prompt is built is passed on as it is. *)
Lemma generate_sql_query_prompt_failure
    (E : Env) (question table_schema table_id : pyval) (e : exn) :
  py_truthy question = true ->
  py_truthy table_id = true ->
  env_value_missing (os_getenv E "GOOGLE_AI_KEY") = false ->
  outcome (bq_sql_gnerator_system_prompt E question table_schema table_id)
  = Raise e ->
  outcome (generate_sql_query E question table_schema table_id) = Raise e.
Proof.
  intros Hq Ht Hk Hp. unfold generate_sql_query.
  rewrite Hq, Ht, Hk. cbn [negb orb]. now rewrite outcome_bind, Hp.
Qed.

Lemma outcome_after_call {A} (ev : event) (m : M A) :
  outcome (call ev (Ok tt) ;;; m) = outcome m.
Proof. now destruct m. Qed.

(** The status of an estimate, from what the dry run did. *)
Lemma estimate_status (E : Env) (sql : pyval) (d : dict) :
  outcome (check_query_validity_and_cost E sql) = Ok (PDict d) ->
  dict_lookup "status" d
  = Some (PStr
      match client_query E sql (Some dry_run_config) with
      | Ok job =>
          match truediv_bytes (total_bytes_processed job) (1024 ^ 4) with
          | Ok _ => "VALID"
          | Raise _ => "ERROR"
          end
      | Raise e => if isinstance e GoogleAPICallError then "INVALID" else "ERROR"
      end).
Proof.
  rewrite check_query_validity_and_cost_cases.
  destruct (client_query E sql (Some dry_run_config)) as [job|e].
  - destruct (truediv_bytes _ _); now intros [= <-].
  - destruct (isinstance e GoogleAPICallError); now intros [= <-].
Qed.

Lemma estimate_returns (E : Env) (sql : pyval) :
  exists d, outcome (check_query_validity_and_cost E sql) = Ok (PDict d).
Proof.
  rewrite check_query_validity_and_cost_cases.
  destruct (client_query E sql (Some dry_run_config)) as [job|e].
  - destruct (truediv_bytes _ _); eexists; reflexivity.
  - destruct (isinstance e GoogleAPICallError); eexists; reflexivity.
Qed.

(** From the request on, the failures are those of [synthesis_cause],
    wrapped by the handlers. *)
Lemma generate_sql_query_fails_after_prompt
    (E : Env) (question table_schema table_id : pyval) (prompt : string)
    (e : exn) :
  py_truthy question = true ->
  py_truthy table_id = true ->
  env_value_missing (os_getenv E "GOOGLE_AI_KEY") = false ->
  outcome (bq_sql_gnerator_system_prompt E question table_schema table_id)
  = Ok prompt ->
  outcome (generate_sql_query E question table_schema table_id) = Raise e
  <-> exists cause,
        synthesis_cause E prompt question cause /\ e = gemini_failure cause.
Proof.
  intros Hq Ht Hk Hp.
  rewrite (generate_sql_query_after_prompt E question table_schema table_id
             prompt Hq Ht Hk Hp), outcome_after_call.
  split.
  - destruct (provider_answer E prompt question) as [answer|c] eqn:Ha.
    2:{ intros [= <-]. exists c. split; [now apply cause_no_answer|reflexivity]. }
    destruct (has_candidates answer) as [[|]|c] eqn:Hc.
    3:{ intros [= <-]. exists c.
        split; [now apply cause_no_candidates with answer|reflexivity]. }
    2:{ discriminate. }
    destruct (candidate_text answer) as [sql|c] eqn:Hs.
    2:{ intros [= <-]. exists c.
        split; [now apply cause_no_candidate_text with answer|reflexivity]. }
    rewrite outcome_after_call.
    destruct (estimate_returns E sql) as (d & Hd).
    pose proof (estimate_status E sql d Hd) as Hst.
    destruct (client_query E sql (Some dry_run_config)) as [job|c].
    + destruct (truediv_bytes _ _); [discriminate|].
      intros [= <-]. exists no_cost_field.
      split; [now apply cause_no_estimate with answer sql d|reflexivity].
    + destruct (isinstance c GoogleAPICallError); [discriminate|].
      intros [= <-]. exists no_cost_field.
      split; [now apply cause_no_estimate with answer sql d|reflexivity].
  - intros (cause & Hcause & ->).
    destruct Hcause as [Ha | answer Ha Hc | answer Ha Hc Hs
                        | answer sql d Ha Hc Hs Hd Hst ->].
    + now rewrite Ha.
    + now rewrite Ha, Hc.
    + now rewrite Ha, Hc, Hs.
    + rewrite Ha, Hc, Hs, outcome_after_call.
      rewrite (estimate_status E sql d Hd) in Hst.
      destruct (client_query E sql (Some dry_run_config)) as [job|c].
      * destruct (truediv_bytes _ _); [discriminate Hst|reflexivity].
      * destruct (isinstance c GoogleAPICallError);
          [discriminate Hst|reflexivity].
Qed.

(** X4. The failures of [generate_sql_query] are exactly these.  When the
    question or the table identifier is missing, the first [ValueError];
    otherwise, when the credential is missing, the second one; otherwise an
    error raised while the prompt is built from the schema, passed on as it
    is; otherwise, for a cause that arises from the request on (the
    provider gives no decoded answer, the answer has no readable candidate,
    or the dry run of the candidate is classified ERROR), a plain
    [Exception] whose text is [Gemini API request failed: ] followed by the
    text of that cause when the cause is a [RequestException], and
    [Error processing Gemini API response: ] followed by it when it is
    not. *)
Theorem synthesis_failures (E : Env)
    (question table_schema table_id : pyval) (e : exn) :
  outcome (generate_sql_query E question table_schema table_id) = Raise e
  <->
  ((py_truthy question = false \/ py_truthy table_id = false)
   /\ e = mk_exn ValueError "question and table_id are required")
  \/ (py_truthy question = true /\ py_truthy table_id = true
      /\ ((env_value_missing (os_getenv E "GOOGLE_AI_KEY") = true
           /\ e = mk_exn ValueError
                    "GOOGLE_AI_KEY environment variable is not set")
          \/ (env_value_missing (os_getenv E "GOOGLE_AI_KEY") = false
              /\ (outcome (bq_sql_gnerator_system_prompt E question
                             table_schema table_id) = Raise e
                  \/ exists prompt cause,
                       outcome (bq_sql_gnerator_system_prompt E question
                                  table_schema table_id) = Ok prompt
                       /\ synthesis_cause E prompt question cause
                       /\ e = mk_exn Exception
                                ((if isinstance cause RequestException
                                  then "Gemini API request failed: "
                                  else "Error processing Gemini API response: ")
                                 ++ exn_str cause))))).
Proof.
  destruct (py_truthy question) eqn:Hq.
  2:{ rewrite generate_sql_query_refusal by (rewrite Hq; auto).
      rewrite Hq. cbn [andb outcome snd]. split.
      - intros [= <-]. left. auto.
      - intros [[_ ->] | (Hc & _)]; [reflexivity | discriminate Hc]. }
  destruct (py_truthy table_id) eqn:Ht.
  2:{ rewrite generate_sql_query_refusal by (rewrite Ht; auto).
      rewrite Hq, Ht. cbn [andb outcome snd]. split.
      - intros [= <-]. left. auto.
      - intros [[_ ->] | (_ & Hc & _)]; [reflexivity | discriminate Hc]. }
  destruct (env_value_missing (os_getenv E "GOOGLE_AI_KEY")) eqn:Hk.
  { rewrite generate_sql_query_refusal by (rewrite Hk; auto).
    rewrite Hq, Ht. cbn [andb outcome snd]. split.
    - intros [= <-]. right. auto.
    - intros [[[Hc|Hc] _] | (_ & _ & [[_ ->] | [Hc _]])];
        try discriminate Hc; reflexivity. }
  destruct (outcome (bq_sql_gnerator_system_prompt E question table_schema
                       table_id)) as [prompt|e0] eqn:Hp.
  2:{ rewrite (generate_sql_query_prompt_failure E question table_schema
                 table_id e0 Hq Ht Hk Hp).
      split.
      - intros [= <-]. right. repeat (split; [reflexivity|]). right.
        split; [reflexivity|]. now left.
      - intros [[[Hc|Hc] _] | (_ & _ & [[Hc _] | [_ [He | H]]])];
          try discriminate Hc.
        + now injection He as <-.
        + destruct H as (p & c & Hc & _). discriminate Hc. }
  rewrite (generate_sql_query_fails_after_prompt E question table_schema
             table_id prompt e Hq Ht Hk Hp).
  unfold gemini_failure. split.
  - intros (cause & Hcause & ->). right. repeat (split; [reflexivity|]).
    right. split; [reflexivity|]. right. now exists prompt, cause.
  - intros [[[Hc|Hc] _] | (_ & _ & [[Hc _] | [_ [Hc | H]]])];
      try discriminate Hc.
    destruct H as (p & cause & [= <-] & Hcause & ->). now exists cause.
Qed.

Lemma synthesis_failures_witness :
  ((py_truthy Sample.question = false
    \/ py_truthy Sample.users_table_id = false)
   /\ mk_exn Exception
        "Gemini API request failed: Expecting value: line 1 column 1 (char 0)"
      = mk_exn ValueError "question and table_id are required")
  \/ (py_truthy Sample.question = true
      /\ py_truthy Sample.users_table_id = true
      /\ ((env_value_missing (os_getenv World.garbled "GOOGLE_AI_KEY") = true
           /\ mk_exn Exception
                "Gemini API request failed: Expecting value: line 1 column 1 (char 0)"
              = mk_exn ValueError
                  "GOOGLE_AI_KEY environment variable is not set")
          \/ (env_value_missing (os_getenv World.garbled "GOOGLE_AI_KEY")
              = false
              /\ (outcome (bq_sql_gnerator_system_prompt World.garbled
                             Sample.question Sample.users_schema
                             Sample.users_table_id)
                  = Raise (mk_exn Exception
                             "Gemini API request failed: Expecting value: line 1 column 1 (char 0)")
                  \/ exists prompt cause,
                       outcome (bq_sql_gnerator_system_prompt World.garbled
                                  Sample.question Sample.users_schema
                                  Sample.users_table_id) = Ok prompt
                       /\ synthesis_cause World.garbled prompt
                            Sample.question cause
                       /\ mk_exn Exception
                            "Gemini API request failed: Expecting value: line 1 column 1 (char 0)"
                          = mk_exn Exception
                              ((if isinstance cause RequestException
                                then "Gemini API request failed: "
                                else "Error processing Gemini API response: ")
                               ++ exn_str cause))))).
Proof.
  apply (proj1 (synthesis_failures World.garbled Sample.question
                  Sample.users_schema Sample.users_table_id _)).
  vm_compute. reflexivity.
Defined.

(** The two texts, on three failures: the provider cannot be reached, its
    answer is not JSON (for [requests] that too is a [RequestException]),
    the dry run does not get through. *)
Example provider_failures_by_kind :
  outcome (generate_sql_query World.offline Sample.question
             Sample.users_schema Sample.users_table_id)
  = Raise (mk_exn Exception "Gemini API request failed: Read timed out.")
  /\ outcome (generate_sql_query World.garbled Sample.question
                Sample.users_schema Sample.users_table_id)
     = Raise (mk_exn Exception
                "Gemini API request failed: Expecting value: line 1 column 1 (char 0)")
  /\ outcome (generate_sql_query Sample.unreachable Sample.question
                Sample.users_schema Sample.users_table_id)
     = Raise (mk_exn Exception
                "Error processing Gemini API response: 'estimated_cost_usd'").
Proof. repeat split; vm_compute; reflexivity. Qed.

(** X5. When the provider answers without any candidate (no [candidates]
    field, or an empty list), [generate_sql_query] returns the
    [no_results] answer, and the one request is all it has done: nothing
    is sent to the warehouse. *)
Theorem answer_without_candidates (E : Env)
    (question table_schema table_id : pyval) (prompt : string)
    (response : Response) (d : dict) :
  py_truthy question = true ->
  py_truthy table_id = true ->
  env_value_missing (os_getenv E "GOOGLE_AI_KEY") = false ->
  outcome (bq_sql_gnerator_system_prompt E question table_schema table_id)
  = Ok prompt ->
  requests_post E
    (gemini_url "gemini-2.5-flash"
       (env_value_text (os_getenv E "GOOGLE_AI_KEY")))
    (gemini_payload E prompt question) = Ok response ->
  raise_for_status response = None ->
  response_json response = Ok (PDict d) ->
  dict_lookup "candidates" d = None
  \/ dict_lookup "candidates" d = Some (PList []) ->
  generate_sql_query E question table_schema table_id
  = ([gemini_request E prompt question],
     Ok (PDict [
       ("sql_query", PStr "No results generated from Gemini API");
       ("user_query", question);
       ("status", PStr "no_results")])).
Proof.
  intros Hq Ht Hk Hp Hpost Hstatus Hjson Hcand.
  unfold generate_sql_query. rewrite Hq, Ht, Hk. cbn [negb orb].
  pose proof (system_prompt_trace E question table_schema table_id) as Htr.
  destruct (bq_sql_gnerator_system_prompt E question table_schema table_id)
    as [trp [p|e]]; cbn [trace outcome fst snd] in Htr, Hp;
    [|discriminate Hp].
  injection Hp as ->. subst trp. cbn [bind].
  unfold gemini_payload in Hpost. rewrite Hpost.
  unfold gemini_request, gemini_payload.
  match goal with
  | |- context [try_except (bind (call ?ev (Ok response)) ?k) ?h] =>
      change (try_except (bind (call ev (Ok response)) k) h)
        with (try_except
                (let '(tr', r) := k response in (ev :: tr', r)) h)
  end.
  cbv beta. rewrite Hstatus, bind_lift_ok, Hjson, bind_lift_ok.
  cbn [py_contains_str]. unfold dict_has.
  destruct Hcand as [Hc|Hc]; rewrite Hc, bind_lift_ok.
  - rewrite !bind_ret. reflexivity.
  - cbn [py_getitem]. rewrite Hc, !bind_lift_ok.
    cbn [py_len List.length Z.of_nat]. rewrite bind_lift_ok, !bind_ret.
    reflexivity.
Qed.

Lemma answer_without_candidates_witness :
  generate_sql_query World.silent Sample.question Sample.users_schema
    Sample.users_table_id
  = ([gemini_request World.silent World.users_prompt Sample.question],
     Ok (PDict [
       ("sql_query", PStr "No results generated from Gemini API");
       ("user_query", Sample.question);
       ("status", PStr "no_results")])).
Proof.
  apply (answer_without_candidates World.silent Sample.question
           Sample.users_schema Sample.users_table_id World.users_prompt
           {| raise_for_status := None;
              response_json := Ok (PDict [("candidates", PList [])]) |}
           [("candidates", PList [])]);
    try reflexivity.
  right. reflexivity.
Defined.

Lemma valid_sql_presentation_embeds
    (table_id question table_schema sql cost bytes : string) :
  let text :=
    valid_sql_presentation table_id question table_schema sql cost bytes in
  Embeds text table_id /\ Embeds text question /\ Embeds text table_schema
  /\ Embeds text sql /\ Embeds text cost /\ Embeds text bytes.
Proof.
  unfold valid_sql_presentation. cbv zeta.
  repeat split; auto 40 with embeds.
Qed.

(** X6. When the dry run of the candidate succeeds, the answer of
    [generate_sql_query] has status [success] and its text shows the
    candidate statement, the estimated cost and the number of bytes of that
    dry run, along with the table, the question and the schema. *)
Theorem valid_review_discloses_cost (E : Env)
    (question table_schema table_id text : pyval) (prompt : string)
    (job : QueryJob) (b : Z) (terabytes : spec_float) :
  py_truthy question = true ->
  py_truthy table_id = true ->
  env_value_missing (os_getenv E "GOOGLE_AI_KEY") = false ->
  outcome (bq_sql_gnerator_system_prompt E question table_schema table_id)
  = Ok prompt ->
  (forall url payload,
     requests_post E url payload = Ok (candidate_response text)) ->
  client_query E text (Some dry_run_config) = Ok job ->
  total_bytes_processed job = Some b ->
  py_int_truediv b (1024 ^ 4) = Ok terabytes ->
  exists message,
    outcome (generate_sql_query E question table_schema table_id)
    = Ok (PDict [("sql_query", PStr message);
                 ("user_query", question);
                 ("status", PStr "success")])
    /\ Embeds message (py_str E text)
    /\ Embeds message
         (py_str E
            (PFloat (py_round
                       (py_float_mul terabytes (py_float_lit 625 100)) 6)))
    /\ Embeds message (str_of_Z b)
    /\ Embeds message (py_str E table_id)
    /\ Embeds message (py_str E question)
    /\ Embeds message (py_str E table_schema).
Proof.
  intros Hq Ht Hk Hp Hpost Hjob Hb Hdiv.
  rewrite (generate_sql_query_review_branch E question table_schema table_id
             text prompt Hq Ht Hk Hp Hpost).
  rewrite Hjob, Hb. cbn [truediv_bytes bytes_value]. rewrite Hdiv.
  eexists. split; [reflexivity|].
  match goal with
  | |- context [valid_sql_presentation ?a ?b ?c ?d ?e ?f] =>
      destruct (valid_sql_presentation_embeds a b c d e f)
        as (H1 & H2 & H3 & H4 & H5 & H6)
  end.
  cbn [py_str]. repeat split; assumption.
Qed.

Lemma valid_review_discloses_cost_witness :
  exists message,
    outcome (generate_sql_query World.accepting Sample.question
               Sample.users_schema Sample.users_table_id)
    = Ok (PDict [("sql_query", PStr message);
                 ("user_query", Sample.question);
                 ("status", PStr "success")])
    /\ Embeds message "SELECT 1"
    /\ Embeds message
         (py_str World.accepting
            (PFloat (py_round
                       (py_float_mul (py_float_lit 1 1048576)
                          (py_float_lit 625 100)) 6)))
    /\ Embeds message "1048576"
    /\ Embeds message "proj.ds.users"
    /\ Embeds message "how many users are there"
    /\ Embeds message (Sample.render Sample.users_schema).
Proof.
  apply (valid_review_discloses_cost World.accepting Sample.question
           Sample.users_schema Sample.users_table_id (PStr "SELECT 1")
           World.users_prompt
           {| total_bytes_processed := Some (2 ^ 20); job_rows := Ok [] |}
           (2 ^ 20) (py_float_lit 1 1048576));
    reflexivity.
Defined.

(** X7. Whatever [generate_sql_query] returns, it has built the prompt,
    sent its one request and got a decoded answer, and the result is a
    dictionary of exactly three fields: [sql_query], a text; [user_query],
    the question as it was given; [status], which is [success] or
    [no_results].  It is [success] only when the answer has a candidate
    and the dry run of that candidate was classified VALID or INVALID, the
    request and that one dry run being all that was done (and the trace
    message, when INVALID); with [no_results] the answer has no candidate,
    the text is the fixed one and the warehouse was not asked. *)
Theorem generated_query_shape (E : Env)
    (question table_schema table_id r : pyval) (tr : list event) :
  generate_sql_query E question table_schema table_id = (tr, Ok r) ->
  exists prompt answer message status,
    outcome (bq_sql_gnerator_system_prompt E question table_schema table_id)
    = Ok prompt
    /\ provider_answer E prompt question = Ok answer
    /\ r = PDict [("sql_query", PStr message);
                  ("user_query", question);
                  ("status", PStr status)]
    /\ ((status = "success"
         /\ has_candidates answer = Ok true
         /\ exists sql d,
              candidate_text answer = Ok sql
              /\ outcome (check_query_validity_and_cost E sql) = Ok (PDict d)
              /\ ((dict_lookup "status" d = Some (PStr "VALID")
                   /\ tr = [gemini_request E prompt question;
                            EvQuery sql (Some dry_run_config)])
                  \/ (dict_lookup "status" d = Some (PStr "INVALID")
                      /\ tr = [gemini_request E prompt question;
                               EvQuery sql (Some dry_run_config);
                               EvPrint "invalid"])))
        \/ (status = "no_results"
            /\ has_candidates answer = Ok false
            /\ message = "No results generated from Gemini API"
            /\ tr = [gemini_request E prompt question])).
Proof.
  intros H.
  destruct (py_truthy question) eqn:Hq.
  2:{ rewrite generate_sql_query_refusal in H by (rewrite Hq; auto).
      discriminate H. }
  destruct (py_truthy table_id) eqn:Ht.
  2:{ rewrite generate_sql_query_refusal in H by (rewrite Ht; auto).
      discriminate H. }
  destruct (env_value_missing (os_getenv E "GOOGLE_AI_KEY")) eqn:Hk.
  { rewrite generate_sql_query_refusal in H by (rewrite Hk; auto).
    discriminate H. }
  destruct (outcome (bq_sql_gnerator_system_prompt E question table_schema
                       table_id)) as [prompt|e0] eqn:Hp.
  2:{ pose proof (generate_sql_query_prompt_failure E question table_schema
                    table_id e0 Hq Ht Hk Hp) as Hf.
      rewrite H in Hf. discriminate Hf. }
  rewrite (generate_sql_query_after_prompt E question table_schema table_id
             prompt Hq Ht Hk Hp) in H.
  exists prompt.
  destruct (provider_answer E prompt question) as [answer|c] eqn:Ha;
    [|discriminate H].
  exists answer.
  destruct (has_candidates answer) as [[|]|c] eqn:Hc; [| |discriminate H].
  - destruct (candidate_text answer) as [sql|c] eqn:Hs; [|discriminate H].
    destruct (estimate_returns E sql) as (d & Hd).
    pose proof (estimate_status E sql d Hd) as Hst.
    destruct (client_query E sql (Some dry_run_config)) as [job|c].
    + destruct (truediv_bytes _ _); [|discriminate H].
      injection H as <- <-. do 2 eexists.
      split; [reflexivity|]. split; [reflexivity|]. split; [reflexivity|].
      left. split; [reflexivity|]. split; [reflexivity|].
      exists sql, d. split; [reflexivity|]. split; [exact Hd|].
      left. now split.
    + destruct (isinstance c GoogleAPICallError); [|discriminate H].
      injection H as <- <-. do 2 eexists.
      split; [reflexivity|]. split; [reflexivity|]. split; [reflexivity|].
      left. split; [reflexivity|]. split; [reflexivity|].
      exists sql, d. split; [reflexivity|]. split; [exact Hd|].
      right. now split.
  - injection H as <- <-. do 2 eexists.
    split; [reflexivity|]. split; [reflexivity|]. split; [reflexivity|].
    right. repeat split; reflexivity.
Qed.

Lemma generated_query_shape_witness :
  exists prompt answer message status,
    outcome (bq_sql_gnerator_system_prompt Sample.rejecting Sample.question
               Sample.users_schema Sample.users_table_id)
    = Ok prompt
    /\ provider_answer Sample.rejecting prompt Sample.question = Ok answer
    /\ PDict [("sql_query",
               PStr (invalid_sql_guidance Sample.function_repr
                       "how many users are there"
                       (Sample.render Sample.users_schema)));
              ("user_query", Sample.question);
              ("status", PStr "success")]
       = PDict [("sql_query", PStr message);
                ("user_query", Sample.question);
                ("status", PStr status)]
    /\ ((status = "success"
         /\ has_candidates answer = Ok true
         /\ exists sql d,
              candidate_text answer = Ok sql
              /\ outcome (check_query_validity_and_cost Sample.rejecting sql)
                 = Ok (PDict d)
              /\ ((dict_lookup "status" d = Some (PStr "VALID")
                   /\ [gemini_request Sample.rejecting World.users_prompt
                         Sample.question;
                       EvQuery (PStr "SELEC 1") (Some dry_run_config);
                       EvPrint "invalid"]
                      = [gemini_request Sample.rejecting prompt
                           Sample.question;
                         EvQuery sql (Some dry_run_config)])
                  \/ (dict_lookup "status" d = Some (PStr "INVALID")
                      /\ [gemini_request Sample.rejecting World.users_prompt
                            Sample.question;
                          EvQuery (PStr "SELEC 1") (Some dry_run_config);
                          EvPrint "invalid"]
                         = [gemini_request Sample.rejecting prompt
                              Sample.question;
                            EvQuery sql (Some dry_run_config);
                            EvPrint "invalid"])))
        \/ (status = "no_results"
            /\ has_candidates answer = Ok false
            /\ message = "No results generated from Gemini API"
            /\ [gemini_request Sample.rejecting World.users_prompt
                  Sample.question;
                EvQuery (PStr "SELEC 1") (Some dry_run_config);
                EvPrint "invalid"]
               = [gemini_request Sample.rejecting prompt Sample.question])).
Proof.
  apply (generated_query_shape Sample.rejecting Sample.question
           Sample.users_schema Sample.users_table_id).
  vm_compute. reflexivity.
Defined.

(** ** SqlSynthesizer: the schema in the prompt *)

Lemma comprehension_ret {A B} (f : A -> M B) (g : A -> B) (xs : list A) :
  (forall x, In x xs -> f x = ret (g x)) ->
  comprehension f xs = ret (map g xs).
Proof.
  induction xs as [|x xs IH]; intros Hf; [reflexivity|].
  cbn [comprehension map]. rewrite (Hf x (or_introl eq_refl)), bind_ret.
  rewrite IH by (intros y Hy; apply Hf; now right).
  now rewrite !bind_ret.
Qed.

(** The line of a well-formed column. *)
Lemma schema_line_ok (E : Env) (col : pyval) :
  has_schema_keys col = true ->
  (name <- lift (py_getitem col "name") ;;
   type <- lift (py_getitem col "type") ;;
   mode <- lift (py_getitem col "mode") ;;
   ret (schema_text_line (py_str E name) (py_str E type) (py_str E mode)))
  = ret (schema_line_of E col).
Proof.
  destruct col as [| | | | | |d]; try discriminate.
  unfold has_schema_keys, dict_has, schema_line_of, py_getitem, dict_field.
  destruct (dict_lookup "name" d); [|discriminate].
  destruct (dict_lookup "type" d); [|discriminate].
  destruct (dict_lookup "mode" d); [|discriminate].
  intros _. now rewrite !bind_lift_ok.
Qed.

(** The line of a malformed column cannot be made. *)
Lemma schema_line_fails (E : Env) (col : pyval) :
  has_schema_keys col = false ->
  exists e,
    (name <- lift (py_getitem col "name") ;;
     type <- lift (py_getitem col "type") ;;
     mode <- lift (py_getitem col "mode") ;;
     ret (schema_text_line (py_str E name) (py_str E type) (py_str E mode)))
    = ([], Raise e)
    /\ (exn_cls e = KeyError \/ exn_cls e = TypeError).
Proof.
  destruct col as [| |z|f|s|l|d];
    try (intros _; eexists; split; [reflexivity | right; reflexivity]).
  unfold has_schema_keys, dict_has, py_getitem.
  destruct (dict_lookup "name" d);
    [|intros _; eexists; split; [reflexivity | left; reflexivity]].
  rewrite bind_lift_ok.
  destruct (dict_lookup "type" d);
    [|intros _; eexists; split; [reflexivity | left; reflexivity]].
  rewrite bind_lift_ok.
  destruct (dict_lookup "mode" d); [discriminate|].
  intros _; eexists; split; [reflexivity | left; reflexivity].
Qed.

Lemma system_prompt_text_embeds
    (current_time schema_text table_id user_question : string) :
  let prompt :=
    system_prompt_text current_time schema_text table_id user_question in
  Embeds prompt current_time /\ Embeds prompt schema_text
  /\ Embeds prompt table_id /\ Embeds prompt user_question.
Proof.
  unfold system_prompt_text. cbv zeta.
  repeat split; auto 40 with embeds.
Qed.

(** The prompt of a schema whose columns are all well formed. *)
Lemma system_prompt_of_columns (E : Env)
    (user_question table_id : pyval) (cols : list pyval) :
  forallb has_schema_keys cols = true ->
  bq_sql_gnerator_system_prompt E user_question (PList cols) table_id
  = ([], Ok (system_prompt_text (now_strftime E)
               (join nl (map (schema_line_of E) cols))
               (py_str E table_id) (py_str E user_question))).
Proof.
  intros Hcols. rewrite forallb_forall in Hcols.
  unfold bq_sql_gnerator_system_prompt. cbn [py_iter]. rewrite bind_lift_ok.
  rewrite (comprehension_ret _ (schema_line_of E) cols)
    by (intros col Hin; apply schema_line_ok; now apply Hcols).
  now rewrite !bind_ret.
Qed.

(** The lines of the columns are in the prompt. *)
Lemma system_prompt_embeds_columns (E : Env)
    (current_time table_id user_question : string) (cols : list pyval)
    (col : pyval) :
  In col cols ->
  Embeds (system_prompt_text current_time
            (join nl (map (schema_line_of E) cols)) table_id user_question)
    (schema_line_of E col).
Proof.
  intros Hin.
  destruct (system_prompt_text_embeds current_time
              (join nl (map (schema_line_of E) cols)) table_id user_question)
    as (_ & Hs & _).
  eapply embeds_trans; [exact Hs|].
  apply join_embeds, in_map_iff. now exists col.
Qed.

(** X8. When every column of the schema has a name, a type and a mode, the
    prompt is built without touching the outside, and it holds the line
    [- name (type, mode)] of every column, the question, the table
    identifier and the time of the request. *)
Theorem system_prompt_lists_columns (E : Env)
    (user_question table_id : pyval) (cols : list pyval) :
  forallb has_schema_keys cols = true ->
  exists prompt,
    bq_sql_gnerator_system_prompt E user_question (PList cols) table_id
    = ([], Ok prompt)
    /\ (forall col, In col cols -> Embeds prompt (schema_line_of E col))
    /\ Embeds prompt (py_str E user_question)
    /\ Embeds prompt (py_str E table_id)
    /\ Embeds prompt (now_strftime E).
Proof.
  intros Hcols. rewrite (system_prompt_of_columns E _ _ cols Hcols).
  eexists. split; [reflexivity|].
  match goal with
  | |- context [system_prompt_text ?a ?b ?c ?d] =>
      destruct (system_prompt_text_embeds a b c d) as (Ht & Hs & Hi & Hq)
  end.
  repeat split; try assumption.
  intros col Hin. now apply system_prompt_embeds_columns.
Qed.

Lemma system_prompt_lists_columns_witness :
  exists prompt,
    bq_sql_gnerator_system_prompt Sample.plain Sample.question
      Sample.users_schema Sample.users_table_id
    = ([], Ok prompt)
    /\ (forall col,
          In col [PDict [("name", PStr "id"); ("type", PStr "INTEGER");
                         ("mode", PStr "REQUIRED")];
                  PDict [("name", PStr "name"); ("type", PStr "STRING");
                         ("mode", PStr "NULLABLE")]] ->
          Embeds prompt (schema_line_of Sample.plain col))
    /\ Embeds prompt "how many users are there"
    /\ Embeds prompt "proj.ds.users"
    /\ Embeds prompt "2026-01-15 09:30:00".
Proof.
  apply (system_prompt_lists_columns Sample.plain Sample.question
           Sample.users_table_id
           [PDict [("name", PStr "id"); ("type", PStr "INTEGER");
                   ("mode", PStr "REQUIRED")];
            PDict [("name", PStr "name"); ("type", PStr "STRING");
                   ("mode", PStr "NULLABLE")]]).
  reflexivity.
Defined.

Lemma comprehension_fails {A B} (f : A -> M B) (ok : A -> bool)
    (P : exn -> Prop) (xs : list A) :
  (forall x, ok x = true -> exists y, f x = ret y) ->
  (forall x, ok x = false -> exists e, f x = ([], Raise e) /\ P e) ->
  forallb ok xs = false ->
  exists e, comprehension f xs = ([], Raise e) /\ P e.
Proof.
  intros Hok Hko. induction xs as [|x xs IH]; [discriminate|].
  cbn [forallb comprehension]. destruct (ok x) eqn:Hx.
  - destruct (Hok x Hx) as (y & ->). rewrite bind_ret. cbn [andb].
    intros Hrest. destruct (IH Hrest) as (e & -> & He).
    exists e. now split.
  - intros _. destruct (Hko x Hx) as (e & -> & He). exists e. now split.
Qed.

(** X9. A schema with a column that lacks a name, a type or a mode stops
    [generate_sql_query] while the prompt is built: the [KeyError] (or
    [TypeError], for a column that is not a dictionary) comes out as it
    is, not as one of the wrapped failures, and no request has been
    sent. *)
Theorem malformed_schema_stops_synthesis (E : Env)
    (question table_id : pyval) (cols : list pyval) :
  py_truthy question = true ->
  py_truthy table_id = true ->
  env_value_missing (os_getenv E "GOOGLE_AI_KEY") = false ->
  forallb has_schema_keys cols = false ->
  exists e,
    generate_sql_query E question (PList cols) table_id = ([], Raise e)
    /\ (exn_cls e = KeyError \/ exn_cls e = TypeError).
Proof.
  intros Hq Ht Hk Hcols.
  unfold generate_sql_query. rewrite Hq, Ht, Hk. cbn [negb orb].
  unfold bq_sql_gnerator_system_prompt. cbn [py_iter]. rewrite bind_lift_ok.
  match goal with
  | |- context [comprehension ?f cols] =>
      destruct (comprehension_fails f has_schema_keys
                  (fun e => exn_cls e = KeyError \/ exn_cls e = TypeError)
                  cols) as (e & -> & He)
  end.
  - intros col Hc. eexists. now apply schema_line_ok.
  - intros col Hc. now apply schema_line_fails.
  - exact Hcols.
  - exists e. now split.
Qed.

Lemma malformed_schema_stops_synthesis_witness :
  exists e,
    generate_sql_query World.accepting Sample.question
      (PList [PDict [("name", PStr "id"); ("type", PStr "INTEGER")]])
      Sample.users_table_id
    = ([], Raise e)
    /\ (exn_cls e = KeyError \/ exn_cls e = TypeError).
Proof.
  apply (malformed_schema_stops_synthesis World.accepting Sample.question
           Sample.users_table_id
           [PDict [("name", PStr "id"); ("type", PStr "INTEGER")]]);
    reflexivity.
Defined.

(** ** ToolExecutor *)

(** X10. [run_sql_query_via_bq_api] asks the warehouse exactly once, for a
    real run and never a dry run, with whatever is found under
    [sql_query]: when the key is missing, [None] is sent, nothing is
    refused locally.  An error of the warehouse, at the query or while the
    rows are read, comes out unchanged; otherwise the answer is the table
    of the cleaned rows alone.  Arguments that are not a dictionary raise
    [AttributeError] before anything is sent. *)
Theorem run_sql_query_runs_once (E : Env) (arguments : pyval) :
  (forall a,
     arguments = PDict a ->
     let sql := match dict_lookup "sql_query" a with
                | Some v => v
                | None => PNone
                end in
     trace (run_sql_query_via_bq_api E arguments) = [EvQuery sql None]
     /\ outcome (run_sql_query_via_bq_api E arguments)
        = match client_query E sql None with
          | Ok job =>
              match job_rows job with
              | Ok rows =>
                  Ok (PStr (dataframe_to_string E
                              (map (json_clean_row E) rows)))
              | Raise e => Raise e
              end
          | Raise e => Raise e
          end)
  /\ (is_dict arguments = false ->
      exists e,
        run_sql_query_via_bq_api E arguments = ([], Raise e)
        /\ exn_cls e = AttributeError).
Proof.
  split.
  - intros a ->. cbv zeta. unfold run_sql_query_via_bq_api, py_get.
    cbn [py_get_default]. rewrite bind_lift_ok.
    rewrite trace_bind, outcome_bind. cbn [call trace outcome fst snd].
    destruct (client_query E _ None) as [job|e]; [|now split].
    rewrite trace_bind_lift, outcome_bind_lift.
    now destruct (job_rows job).
  - destruct arguments; try discriminate; intros _; eexists;
      (split; [reflexivity|reflexivity]).
Qed.

Lemma run_sql_query_runs_once_witness :
  trace (run_sql_query_via_bq_api Sample.plain (PDict []))
  = [EvQuery PNone None]
  /\ outcome (run_sql_query_via_bq_api Sample.plain (PDict []))
     = Raise Sample.syntax_error.
Proof.
  apply (proj1 (run_sql_query_runs_once Sample.plain (PDict [])) []).
  reflexivity.
Defined.

(** ** Tool dispatch: failures and missing arguments *)

(** X11. [handle_tool_call] raises in two ways only: the parameters are
    not a dictionary, and the [AttributeError] comes before anything is
    done; or a registered handler ran on the decoded arguments and raised,
    and the dispatcher raises that exception after the handler's effects
    and none of its own. *)
Theorem tool_call_failures (E : Env) (params : pyval) (e : exn) :
  outcome (handle_tool_call E params) = Raise e ->
  (is_dict params = false
   /\ handle_tool_call E params = ([], Raise e)
   /\ exn_cls e = AttributeError)
  \/ exists tool_name arguments a h,
       py_get params "name" = Ok tool_name
       /\ py_get_default params "arguments" (PDict []) = Ok arguments
       /\ decoded_arguments E arguments = Some a
       /\ registered_handler tool_name = Some h
       /\ h E a = (trace (handle_tool_call E params), Raise e).
Proof.
  destruct params as [| |z|f|s|l|d];
    try (intros [= <-]; left; repeat split; reflexivity).
  intros H. right.
  pose proof (handle_tool_call_known E (PDict d) _ _ eq_refl eq_refl) as Hk.
  rewrite Hk in H. rewrite Hk. clear Hk.
  eexists. eexists.
  destruct (decoded_arguments E _) as [a|] eqn:Hd; [|discriminate H].
  destruct (registered_handler _) as [h|] eqn:Hh; [|discriminate H].
  exists a, h. repeat split; try reflexivity; try assumption.
  rewrite bind_then_ret in H |- *. cbn [outcome trace fst snd] in H |- *.
  destruct (h E a) as [tr [data|e']]; cbn [outcome trace fst snd] in H |- *;
    [discriminate H|]. now injection H as ->.
Qed.

Lemma tool_call_failures_witness :
  (is_dict (tool_call "run_sql_query" (PDict [("sql_query", PStr "SELEC")]))
   = false
   /\ handle_tool_call Sample.plain
        (tool_call "run_sql_query" (PDict [("sql_query", PStr "SELEC")]))
      = ([], Raise Sample.syntax_error)
   /\ exn_cls Sample.syntax_error = AttributeError)
  \/ exists tool_name arguments a h,
       py_get (tool_call "run_sql_query"
                 (PDict [("sql_query", PStr "SELEC")])) "name"
       = Ok tool_name
       /\ py_get_default
            (tool_call "run_sql_query" (PDict [("sql_query", PStr "SELEC")]))
            "arguments" (PDict []) = Ok arguments
       /\ decoded_arguments Sample.plain arguments = Some a
       /\ registered_handler tool_name = Some h
       /\ h Sample.plain a
          = (trace (handle_tool_call Sample.plain
                      (tool_call "run_sql_query"
                         (PDict [("sql_query", PStr "SELEC")]))),
             Raise Sample.syntax_error).
Proof.
  apply (tool_call_failures Sample.plain
           (tool_call "run_sql_query" (PDict [("sql_query", PStr "SELEC")]))
           Sample.syntax_error).
  reflexivity.
Defined.

(** X12. A [tools/call] without an [arguments] field is the same call
    with the empty mapping as arguments.  With [arguments] present and
    null it is not: the three handlers that read their arguments raise
    [AttributeError] at once, and only the listing tool still answers. *)
Theorem absent_and_null_arguments (E : Env) (p : dict) :
  (dict_lookup "arguments" p = None ->
   handle_tool_call E (PDict p)
   = handle_tool_call E (PDict (("arguments", PDict []) :: p)))
  /\ (dict_lookup "arguments" p = Some PNone ->
      forall tool_name h,
        py_get (PDict p) "name" = Ok tool_name ->
        registered_handler tool_name = Some h ->
        (py_eq_str tool_name "get_list_of_datasets_by_project_id" = false ->
         handle_tool_call E (PDict p)
         = ([], Raise (mk_exn AttributeError
                         "'NoneType' object has no attribute 'get'")))
        /\ (py_eq_str tool_name "get_list_of_datasets_by_project_id" = true ->
            exists text,
              outcome (handle_tool_call E (PDict p))
              = Ok (success_result text))).
Proof.
  split.
  - intros Ha. rewrite !handle_tool_call_dispatch.
    unfold py_get, py_get_default. cbn [dict_lookup String.eqb Ascii.eqb
                                          Bool.eqb andb].
    now rewrite Ha.
  - intros Ha tool_name h Hn Hh.
    rewrite (handle_tool_call_known E (PDict p) tool_name PNone Hn)
      by (unfold py_get_default; now rewrite Ha).
    cbn [decoded_arguments]. rewrite Hh.
    unfold registered_handler in Hh. split; intros Hl; rewrite Hl in Hh.
    + destruct (py_eq_str tool_name "get_table_schema");
        [injection Hh as <-; reflexivity|].
      destruct (py_eq_str tool_name "create_custom_sql_query_to_review");
        [injection Hh as <-; reflexivity|].
      destruct (py_eq_str tool_name "run_sql_query");
        [injection Hh as <-; reflexivity | discriminate Hh].
    + injection Hh as <-. rewrite bind_then_ret. cbn [outcome snd].
      rewrite listing_text. eexists. reflexivity.
Qed.

Lemma absent_and_null_arguments_witness :
  handle_tool_call Sample.plain (PDict [("name", PStr "get_table_schema")])
  = handle_tool_call Sample.plain
      (PDict [("arguments", PDict []); ("name", PStr "get_table_schema")]).
Proof.
  apply (proj1 (absent_and_null_arguments Sample.plain
                  [("name", PStr "get_table_schema")])).
  reflexivity.
Defined.

(** X13. The tools announced by [tools/list] are exactly the tools
    [handle_tool_call] dispatches: a name has a handler if and only if it
    is the name of a descriptor. *)
Theorem announced_tools_are_the_dispatched_ones (tool_name : pyval) :
  registered_handler tool_name <> None
  <-> In tool_name (map descriptor_name (tools_of handle_tools_list)).
Proof.
  change (map descriptor_name (tools_of handle_tools_list))
    with [PStr "get_list_of_datasets_by_project_id"; PStr "get_table_schema";
          PStr "create_custom_sql_query_to_review"; PStr "run_sql_query"].
  split.
  - unfold registered_handler.
    destruct tool_name as [| | | |s| |];
      try (intros H; now elim H).
    cbn [py_eq_str].
    destruct (String.eqb_spec s "get_list_of_datasets_by_project_id")
      as [->|_]; [intros _; now left|].
    destruct (String.eqb_spec s "get_table_schema")
      as [->|_]; [intros _; right; now left|].
    destruct (String.eqb_spec s "create_custom_sql_query_to_review")
      as [->|_]; [intros _; do 2 right; now left|].
    destruct (String.eqb_spec s "run_sql_query")
      as [->|_]; [intros _; do 3 right; now left|].
    intros H. now elim H.
  - intros [<-|[<-|[<-|[<-|[]]]]]; discriminate.
Qed.

(** ** CostGuard: the sign of the estimate *)

(** X14. The estimated cost of a VALID estimate is a number, never a NaN,
    and its sign is that of the byte count the dry run reported.  For a
    count that is not negative the cost is therefore not negative: it is
    zero, a positive float, or (for counts beyond any real table) positive
    infinity, never below zero. *)
Theorem valid_estimate_cost_is_not_negative
    (E : Env) (sql : pyval) (d : dict) :
  outcome (check_query_validity_and_cost E sql) = Ok (PDict d) ->
  dict_lookup "status" d = Some (PStr "VALID") ->
  exists (b : Z) (cost : spec_float),
    dict_lookup "bytes_processed" d = Some (PInt b)
    /\ dict_lookup "estimated_cost_usd" d = Some (PFloat cost)
    /\ has_sign (b <? 0) cost
    /\ (0 <= b -> float_nonneg cost = true).
Proof.
  rewrite check_query_validity_and_cost_cases.
  destruct (client_query E sql (Some dry_run_config)) as [job|e].
  - destruct (total_bytes_processed job) as [b|];
      cbn [truediv_bytes bytes_value].
    + destruct (py_int_truediv b (1024 ^ 4)) as [t|e] eqn:Ht;
        intros [= <-] Hs; read_status; [|absurd_status].
      exists b. eexists. split; [reflexivity|]. split; [reflexivity|].
      apply (py_int_truediv_sign b (Z.to_pos (1024 ^ 4))) in Ht.
      assert (Hc : has_sign (b <? 0)
                     (py_round
                        (py_float_mul t (py_float_lit 625 100)) 6)).
      { apply py_round_sign.
        change (py_float_lit 625 100)
          with (S754_finite false 7036874417766400 (-50)).
        rewrite <- (xorb_false_r (b <? 0)).
        apply (SFmul_sign prec emax (b <? 0) false t). exact Ht. }
      split; [exact Hc|]. intros Hb.
      replace (b <? 0) with false in Hc by (symmetry; apply Z.ltb_ge; lia).
      destruct (py_round _ 6) as [s|s| |s mc ec]; cbn in Hc |- *;
        try contradiction; now subst s.
    + intros [= <-] Hs; read_status; absurd_status.
  - destruct (isinstance e GoogleAPICallError);
      intros [= <-] Hs; read_status; absurd_status.
Qed.

Lemma valid_estimate_cost_is_not_negative_witness :
  exists (b : Z) (cost : spec_float),
    dict_lookup "bytes_processed" Sample.two_tib_estimate = Some (PInt b)
    /\ dict_lookup "estimated_cost_usd" Sample.two_tib_estimate
       = Some (PFloat cost)
    /\ has_sign (b <? 0) cost
    /\ (0 <= b -> float_nonneg cost = true).
Proof.
  apply (valid_estimate_cost_is_not_negative Sample.two_tib
           (PStr "SELECT 1") Sample.two_tib_estimate);
    vm_compute; reflexivity.
Defined.

(** X15. The fields of an estimate follow its status: the cost and the
    byte count are both present when the status is VALID and both absent
    otherwise, [error_details] is present exactly when they are absent,
    and a message is always there. *)
Theorem estimate_fields_follow_status (E : Env) (sql : pyval) (d : dict) :
  outcome (check_query_validity_and_cost E sql) = Ok (PDict d) ->
  (dict_lookup "status" d = Some (PStr "VALID")
   <-> dict_has "estimated_cost_usd" d = true)
  /\ dict_has "bytes_processed" d = dict_has "estimated_cost_usd" d
  /\ dict_has "error_details" d = negb (dict_has "estimated_cost_usd" d)
  /\ dict_has "message" d = true.
Proof.
  rewrite check_query_validity_and_cost_cases.
  destruct (client_query E sql (Some dry_run_config)) as [job|e].
  - destruct (truediv_bytes (total_bytes_processed job) (1024 ^ 4))
      as [t|e]; intros [= <-]; read_status;
      (split; [split; [reflexivity || (intros H; absurd_status)
                      | reflexivity || discriminate]|]);
      repeat split; reflexivity.
  - destruct (isinstance e GoogleAPICallError); intros [= <-]; read_status;
      (split; [split; [intros H; absurd_status | discriminate]|]);
      repeat split; reflexivity.
Qed.

Lemma estimate_fields_follow_status_witness :
  (dict_lookup "status" Sample.two_tib_estimate = Some (PStr "VALID")
   <-> dict_has "estimated_cost_usd" Sample.two_tib_estimate = true)
  /\ dict_has "bytes_processed" Sample.two_tib_estimate
     = dict_has "estimated_cost_usd" Sample.two_tib_estimate
  /\ dict_has "error_details" Sample.two_tib_estimate
     = negb (dict_has "estimated_cost_usd" Sample.two_tib_estimate)
  /\ dict_has "message" Sample.two_tib_estimate = true.
Proof.
  apply (estimate_fields_follow_status Sample.two_tib (PStr "SELECT 1")
           Sample.two_tib_estimate).
  vm_compute. reflexivity.
Defined.

(** ** SqlReviewPipeline: from the fetched schema to the request *)

Lemma review_trace_shape_head (request : event) (tr : list event) :
  review_trace_shape request tr -> exists rest, tr = request :: rest.
Proof.
  intros [-> | [(sql & ->) | (sql & ->)]]; eexists; reflexivity.
Qed.

(** X16. In a review that passes the checks, the schema is fetched first
    and the request to the provider comes next; the prompt of that request
    holds a line for every column of the table that was just fetched, and
    the question and the table identifier of the call. *)
Theorem review_request_carries_fetched_schema (E : Env) (a : dict)
    (question table_id : pyval) (table : Table) :
  py_get (PDict a) "question" = Ok question ->
  py_get (PDict a) "table_id" = Ok table_id ->
  py_truthy question = true ->
  py_truthy table_id = true ->
  env_value_missing (os_getenv E "GOOGLE_AI_KEY") = false ->
  client_get_table E table_id = Ok table ->
  forallb has_schema_keys
    (map (fun field => PDict (to_api_repr field)) (schema table)) = true ->
  exists prompt rest,
    trace (create_custom_sql_query_to_review E (PDict a))
    = EvGetTable table_id :: gemini_request E prompt question :: rest
    /\ (forall field,
          In field (schema table) ->
          Embeds prompt (schema_line_of E (PDict (to_api_repr field))))
    /\ Embeds prompt (py_str E question)
    /\ Embeds prompt (py_str E table_id).
Proof.
  intros Hq Ht Hqt Htt Hk Hget Hcols.
  pose proof (system_prompt_of_columns E question table_id _ Hcols) as Hp.
  pose proof (generate_sql_query_trace_after_prompt E question _ table_id _
                Hqt Htt Hk (f_equal snd Hp)) as Hshape.
  apply review_trace_shape_head in Hshape. destruct Hshape as (rest & Hrest).
  eexists. exists rest. split; [|split; [|split]].
  - unfold create_custom_sql_query_to_review.
    rewrite Hq, Ht, !bind_lift_ok. unfold get_table_schema.
    change (py_get (PDict [("table_id", table_id)]) "table_id")
      with (@Ok pyval table_id).
    rewrite bind_lift_ok, bind_assoc, trace_bind, Hget.
    cbn [call trace outcome fst snd app]. rewrite bind_ret.
    match goal with
    | |- context [bind ?g (fun sql => ret sql)] =>
        rewrite (bind_then_ret g (fun sql => sql))
    end.
    cbn [trace fst]. now rewrite Hrest.
  - intros field Hin. apply system_prompt_embeds_columns.
    apply in_map_iff. now exists field.
  - apply system_prompt_text_embeds.
  - apply system_prompt_text_embeds.
Qed.

Lemma review_request_carries_fetched_schema_witness :
  exists prompt rest,
    trace (create_custom_sql_query_to_review World.accepting
             (PDict [("question", Sample.question);
                     ("table_id", Sample.users_table_id)]))
    = EvGetTable Sample.users_table_id
      :: gemini_request World.accepting prompt Sample.question :: rest
    /\ (forall field,
          In field (schema Sample.users_table) ->
          Embeds prompt
            (schema_line_of World.accepting (PDict (to_api_repr field))))
    /\ Embeds prompt "how many users are there"
    /\ Embeds prompt "proj.ds.users".
Proof.
  apply (review_request_carries_fetched_schema World.accepting
           [("question", Sample.question);
            ("table_id", Sample.users_table_id)]
           Sample.question Sample.users_table_id Sample.users_table);
    reflexivity.
Defined.
